(** * Gainr: price ingestion and derived metrics

    A shallow embedding of the client library of the Gainr portfolio
    tracker ([lib/api], [lib/types] and the valuation code of
    [PortfolioTracker]) and the properties of its specification.

    Modelling conventions.
    - A JavaScript [number] is an exact rational extended with [NaN] and
      the two infinities.  Rounding of binary floating point, overflow and
      the sign of zero are not represented: a decimal literal such as
      [0.1] is the rational it denotes, and [-0] is read as [0].
    - Values parsed from JSON are kept untyped ([jsval]) wherever the code
      inspects them with [typeof], truthiness or optional chaining, and
      typed as the TypeScript interfaces declare them elsewhere.
    - A record that the code builds with an object literal and indexes by
      a text from outside ([prices], [cryptoIds]) inherits the members of
      [Object.prototype]: reads and writes under those names are modelled.
    - Asynchronous code is sequential here: a [fetch] call is answered by a
      scripted network, and every wait is recorded in a trace.  Logging
      and toasts are left out.
    - Counts ([attempts], loop indices) are natural numbers, times are
      integers in milliseconds. *)

From Stdlib Require Import ZArith QArith Qcanon Qround Lia.
From Stdlib Require Import Ascii String DecimalString.
From Stdlib Require HexadecimalString.
From stdpp Require Import gmap strings list.

(** ** JavaScript numbers *)

Inductive number : Type :=
  | Fin (q : Qc)
  | PInf
  | NInf
  | NaN.

Definition Qc_ltb (x y : Qc) : bool :=
  match (x ?= y)%Qc with Lt => true | _ => false end.

Definition Qc_eqb (x y : Qc) : bool :=
  match (x ?= y)%Qc with Eq => true | _ => false end.

Definition Qc_leb (x y : Qc) : bool :=
  match (x ?= y)%Qc with Gt => false | _ => true end.

Definition zero : number := Fin 0%Qc.

Definition num_of_Z (z : Z) : number := Fin (Q2Qc (inject_Z z)).

(** Sign of a number that is not [NaN], as a [comparison] with zero. *)
Definition num_sign (x : number) : comparison :=
  match x with
  | Fin q => (q ?= 0)%Qc
  | PInf => Gt
  | NInf => Lt
  | NaN => Eq
  end.

Definition sign_mul (a b : comparison) : comparison :=
  match a, b with
  | Eq, _ | _, Eq => Eq
  | Gt, Gt | Lt, Lt => Gt
  | _, _ => Lt
  end.

(** An infinity of the given sign; sign [Eq] is the indeterminate form. *)
Definition inf_of_sign (c : comparison) : number :=
  match c with Gt => PInf | Lt => NInf | Eq => NaN end.

Definition num_neg (x : number) : number :=
  match x with
  | Fin q => Fin (- q)%Qc
  | PInf => NInf
  | NInf => PInf
  | NaN => NaN
  end.

Definition num_add (x y : number) : number :=
  match x, y with
  | NaN, _ | _, NaN => NaN
  | Fin a, Fin b => Fin (a + b)%Qc
  | PInf, NInf | NInf, PInf => NaN
  | PInf, _ | _, PInf => PInf
  | NInf, _ | _, NInf => NInf
  end.

Definition num_sub (x y : number) : number := num_add x (num_neg y).

Definition num_mul (x y : number) : number :=
  match x, y with
  | NaN, _ | _, NaN => NaN
  | Fin a, Fin b => Fin (a * b)%Qc
  | _, _ => inf_of_sign (sign_mul (num_sign x) (num_sign y))
  end.

Definition num_div (x y : number) : number :=
  match x, y with
  | NaN, _ | _, NaN => NaN
  | Fin a, Fin b =>
      if Qc_eqb b 0 then inf_of_sign (a ?= 0)%Qc else Fin (a / b)%Qc
  | Fin _, _ => zero
  | _, Fin b =>
      inf_of_sign (sign_mul (num_sign x) (if Qc_eqb b 0 then Gt else (b ?= 0)%Qc))
  | _, _ => NaN
  end.

(** [Math.abs] *)
Definition num_abs (x : number) : number :=
  match x with
  | Fin q => if Qc_ltb q 0 then Fin (- q)%Qc else Fin q
  | PInf | NInf => PInf
  | NaN => NaN
  end.

(** [x < y]; every comparison with [NaN] is false. *)
Definition num_lt (x y : number) : bool :=
  match x, y with
  | NaN, _ | _, NaN => false
  | Fin a, Fin b => Qc_ltb a b
  | NInf, NInf | PInf, _ => false
  | NInf, _ => true
  | Fin _, PInf => true
  | Fin _, NInf => false
  end.

Definition num_gt (x y : number) : bool := num_lt y x.

Definition num_eq (x y : number) : bool :=
  match x, y with
  | Fin a, Fin b => Qc_eqb a b
  | PInf, PInf | NInf, NInf => true
  | _, _ => false
  end.

(** [x >= y] *)
Definition num_ge (x y : number) : bool := num_gt x y || num_eq x y.

Definition num_isNaN (x : number) : bool :=
  match x with NaN => true | _ => false end.

Definition is_finite (x : number) : Prop :=
  match x with Fin _ => True | _ => False end.

(** ** Values parsed from JSON *)

#[warnings="-register-all"]
Inductive jsval : Type :=
  | JUndefined
  | JNull
  | JBool (b : bool)
  | JNum (n : number)
  | JStr (s : string)
  | JArr (elems : list jsval)
  | JObj (fields : gmap string jsval).

(** Truthiness, as [if (v)] and [!v] test it. *)
Definition truthy (v : jsval) : bool :=
  match v with
  | JUndefined | JNull => false
  | JBool b => b
  | JNum n => negb (num_eq n zero || num_isNaN n)
  | JStr s => negb (String.eqb s "")
  | JArr _ | JObj _ => true
  end.

Definition js_typeof (v : jsval) : string :=
  match v with
  | JUndefined => "undefined"
  | JBool _ => "boolean"
  | JNum _ => "number"
  | JStr _ => "string"
  | JNull | JArr _ | JObj _ => "object"
  end.

Definition is_number (v : jsval) : bool := String.eqb (js_typeof v) "number".

(** ** Errors and results *)

Definition string_of_Z (z : Z) : string :=
  match z with
  | Zneg p => "-" +:+ NilZero.string_of_uint (Pos.to_uint p)
  | _ => NilZero.string_of_uint (N.to_uint (Z.to_N z))
  end.

Inductive Error : Type :=
  | HttpError (code : Z) (text : string)
  | FetchError (msg : string)
  | NetworkRequestFailed
  | MaxRetries
  | InvalidPriceData
  | TypeError
  | SyntaxError.

(** The message of an error; the wording of the errors that the engine
    raises itself is not represented. *)
Definition message (e : Error) : string :=
  match e with
  | HttpError code text =>
      "HTTP error! status: " +:+ string_of_Z code +:+ " - " +:+ text
  | FetchError msg => msg
  | NetworkRequestFailed => "Network request failed"
  | MaxRetries => "Maximum retry attempts reached"
  | InvalidPriceData => "Invalid price data received"
  | TypeError => "TypeError"
  | SyntaxError => "SyntaxError"
  end.

Inductive result (A : Type) : Type :=
  | Ok (a : A)
  | Err (e : Error).
Arguments Ok {A} a.
Arguments Err {A} e.

Definition bind {A B} (r : result A) (k : A -> result B) : result B :=
  match r with
  | Ok a => k a
  | Err e => Err e
  end.

Notation "'let*' x ':=' r 'in' k" := (bind r (fun x => k))
  (at level 10, x name, r at level 100, k at level 200).

(** ** The backoff-retry fetcher *)

Record Response : Type := mkResponse {
  status : Z;
  statusText : string;
  (** the body as [response.json()] parses it; [None] when it is not JSON *)
  body : option jsval
}.

(** [response.ok]: the status is in the range 200-299. *)
Definition ok (r : Response) : bool :=
  (200 <=? status r)%Z && (status r <=? 299)%Z.

(** What a rejected [fetch] throws: an [Error] object or something else. *)
Inductive thrown : Type :=
  | ThrownError (msg : string)
  | ThrownOther.

Inductive fetch_outcome : Type :=
  | Responds (r : Response)
  | Rejects (t : thrown).

(** The scripted network: the outcome of the call number [i] (from 0) that
    one run makes to [fetch url]. *)
Definition network : Type := string -> nat -> fetch_outcome.

Inductive event : Type :=
  | EvFetch
  | EvDelay (ms : Z).

Definition run (A : Type) : Type := (result A * list event)%type.

(** [Math.min(1000 * Math.pow(2, i), 30000)] *)
Definition backoff (i : nat) : Z := Z.min (1000 * 2 ^ Z.of_nat i) 30000.

(** The [for] loop of [fetchWithRetry], by recursion on the number
    [attempts - i] of iterations that remain. *)
Fixpoint retry_loop (net : network) (url : string) (attempts remaining i : nat)
    (lastError : option Error) : run Response :=
  match remaining with
  | O => (Err (default MaxRetries lastError), [])
  | S rest =>
      let next le :=
        let '(res, tr) := retry_loop net url attempts rest (S i) le in
        (res, EvFetch :: EvDelay (backoff i) :: tr) in
      let catch e :=
        if (i =? attempts - 1)%nat then (Err e, [EvFetch]) else next (Some e) in
      match net url i with
      | Responds response =>
          if (status response =? 429)%Z then next lastError
          else if negb (ok response)
          then catch (HttpError (status response) (statusText response))
          else (Ok response, [EvFetch])
      | Rejects (ThrownError msg) => catch (FetchError msg)
      | Rejects ThrownOther => catch NetworkRequestFailed
      end
  end.

Definition fetchWithRetry (net : network) (url : string) (attempts : nat)
    : run Response :=
  retry_loop net url attempts attempts 0 None.

(** Observations on a trace. *)
Definition is_fetch (e : event) : bool :=
  match e with EvFetch => true | EvDelay _ => false end.

Definition attempts_made (tr : list event) : nat :=
  length (List.filter is_fetch tr).

(** The wait that directly precedes the attempt number [i] (from 1), if
    any; [seen] counts the attempts already passed and [last] is the wait
    recorded since the latest of them. *)
Fixpoint delay_before_from (tr : list event) (seen : nat) (last : option Z)
    (i : nat) : option Z :=
  match tr with
  | [] => None
  | EvFetch :: tr' =>
      if (S seen =? i)%nat then last else delay_before_from tr' (S seen) None i
  | EvDelay ms :: tr' => delay_before_from tr' seen (Some ms) i
  end.

Definition delay_before (tr : list event) (i : nat) : option Z :=
  delay_before_from tr 0 None i.

Definition rate_limited (o : fetch_outcome) : bool :=
  match o with
  | Responds r => (status r =? 429)%Z
  | Rejects _ => false
  end.

(** An attempt that does not return a response to the caller. *)
Definition failed_attempt (o : fetch_outcome) : bool :=
  match o with
  | Responds r => negb (ok r)
  | Rejects _ => true
  end.

(** One failed or rate-limited attempt after another, [n] of them from
    index [i] on, each followed by its wait. *)
Definition waits_from (i n : nat) : list event :=
  flat_map (fun j => [EvFetch; EvDelay (backoff j)]) (seq i n).

(** ** Number formatting and parsing *)

Definition is_digit (c : ascii) : bool :=
  (48 <=? nat_of_ascii c)%nat && (nat_of_ascii c <=? 57)%nat.

(** The value of a string of decimal digits, [None] on any other character. *)
Fixpoint digits_value (s : string) (acc : Z) : option Z :=
  match s with
  | EmptyString => Some acc
  | String c s' =>
      if is_digit c
      then digits_value s' (10 * acc + (Z.of_nat (nat_of_ascii c) - 48))%Z
      else None
  end.

(** Split at the first dot. *)
Fixpoint split_dot (s : string) : string * option string :=
  match s with
  | EmptyString => (EmptyString, None)
  | String c s' =>
      if Ascii.eqb c "." then (EmptyString, Some s')
      else let '(a, b) := split_dot s' in (String c a, b)
  end.

Definition Qc_of_ratio (n d : Z) : Qc := Q2Qc (n # Z.to_pos d).

(** Unsigned decimal literals without exponent: [12], [12.], [12.5], [.5]. *)
Definition parse_unsigned (s : string) : option Qc :=
  let '(ip, fp) := split_dot s in
  let fp := default EmptyString fp in
  if (String.length ip + String.length fp =? 0)%nat then None
  else
    match digits_value ip 0, digits_value fp 0 with
    | Some a, Some b =>
        let d := (10 ^ Z.of_nat (String.length fp))%Z in
        Some (Qc_of_ratio (a * d + b) d)
    | _, _ => None
    end.

Definition parse_decimal (s : string) : option Qc :=
  match s with
  | String "-" s' => Qcopp <$> parse_unsigned s'
  | String "+" s' => parse_unsigned s'
  | _ => parse_unsigned s
  end.

(** [n] zeros. *)
Fixpoint zeros (n : nat) : string :=
  match n with
  | O => EmptyString
  | S n' => String "0" (zeros n')
  end.

(** The digits of [n >= 0] with a dot before the last [f] of them, as
    [Number.prototype.toFixed] lays them out. *)
Definition fixed_digits (f : nat) (n : Z) : string :=
  let m := string_of_Z n in
  let k := String.length m in
  let m := if (k <=? f)%nat then zeros (f + 1 - k) +:+ m else m in
  let k := String.length m in
  String.substring 0 (k - f) m +:+ "." +:+ String.substring (k - f) f m.

(** The integer nearest to [100 x], the larger one on a tie ([x >= 0]). *)
Definition round_hundredths (x : Qc) : Z :=
  Qfloor (this x * 100 + (1 # 2))%Q.

Section Runtime.

(** Parts of the JavaScript runtime that are left open:
    - [StringToNumberOther]: [Number(s)] for a string outside the plain
      decimal literals of [parse_decimal] (white space, exponents, other
      radices, [Infinity], and everything that yields [NaN]);
    - [ArrayToNumber]: the numeric coercion of an array, which goes through
      [Array.prototype.join];
    - [NumberToString]: the exponent notation that [toFixed] switches to
      from [10^21] on. *)
Variable StringToNumberOther : string -> number.
Variable ArrayToNumber : list jsval -> result number.
Variable NumberToString : Qc -> string.

(** [Number(s)] *)
Definition StringToNumber (s : string) : number :=
  if String.eqb s "" then zero
  else match parse_decimal s with
       | Some q => Fin q
       | None => StringToNumberOther s
       end.

(** The numeric coercion that arithmetic applies to an operand.  An object
    parsed from JSON is coerced through the inherited [valueOf] and
    [toString], unless it has a property of its own named [toString], which
    cannot be a function. *)
Definition to_number (v : jsval) : result number :=
  match v with
  | JUndefined => Ok NaN
  | JNull => Ok zero
  | JBool b => Ok (if b then num_of_Z 1 else zero)
  | JNum n => Ok n
  | JStr s => Ok (StringToNumber s)
  | JArr elems => ArrayToNumber elems
  | JObj fields =>
      match fields !! "toString" with
      | Some _ => Err TypeError
      | None => Ok NaN
      end
  end.

(** [x.toFixed(2)] on a number *)
Definition toFixed2 (x : number) : string :=
  match x with
  | NaN => "NaN"
  | PInf => "Infinity"
  | NInf => "-Infinity"
  | Fin q =>
      let '(s, a) := if Qc_ltb q 0 then ("-", (- q)%Qc) else ("", q) in
      if Qc_leb (Q2Qc (inject_Z (10 ^ 21))) a then s +:+ NumberToString a
      else s +:+ fixed_digits 2 (round_hundredths a)
  end.

(** [v.toFixed(2)] on a value parsed from JSON: only numbers have the method. *)
Definition call_toFixed2 (v : jsval) : result string :=
  match v with
  | JNum n => Ok (toFixed2 n)
  | _ => Err TypeError
  end.

(** ** Market data client: spot price *)

(** The element of an array under a property key: canonical indices and
    [length]. *)
Definition arr_get (elems : list jsval) (k : string) : jsval :=
  if String.eqb k "length" then JNum (num_of_Z (Z.of_nat (length elems)))
  else
    match List.find (fun i => String.eqb (string_of_Z (Z.of_nat i)) k)
                    (seq 0 (length elems)) with
    | Some i => nth i elems JUndefined
    | None => JUndefined
    end.

(** [v[k]].  Reading a property of [undefined] or [null] throws.  Only the
    data that JSON can carry is represented: a property of a primitive, and
    an inherited method, is a primitive or a function (never an object
    with fields of its own) and reads as [undefined] here. *)
Definition get_prop (v : jsval) (k : string) : result jsval :=
  match v with
  | JUndefined | JNull => Err TypeError
  | JObj fields => Ok (default JUndefined (fields !! k))
  | JArr elems => Ok (arr_get elems k)
  | JBool _ | JNum _ | JStr _ => Ok JUndefined
  end.

(** [v?.k] *)
Definition get_prop_opt (v : jsval) (k : string) : result jsval :=
  match v with
  | JUndefined | JNull => Ok JUndefined
  | _ => get_prop v k
  end.

(** [response.json()] *)
Definition json (r : Response) : result jsval :=
  match body r with
  | Some data => Ok data
  | None => Err SyntaxError
  end.

(** Lines 89-94 of [getCryptoPrice]: the price read from the parsed body. *)
Definition priceFromBody (data : jsval) (cryptoId : string) : result jsval :=
  let* entry := get_prop data cryptoId in
  let* usd := get_prop_opt entry "usd" in
  if negb (truthy usd) then Err InvalidPriceData
  else
    let* entry := get_prop data cryptoId in
    get_prop entry "usd".

Definition price_url (cryptoId : string) : string :=
  "https://api.coingecko.com/api/v3/simple/price?ids=" +:+ cryptoId
    +:+ "&vs_currencies=usd".

(** The [catch] block logs and rethrows the same error. *)
Definition getCryptoPrice (net : network) (cryptoId : string) : run jsval :=
  let '(fetched, tr) := fetchWithRetry net (price_url cryptoId) 3 in
  (let* response := fetched in
   let* data := json response in
   priceFromBody data cryptoId, tr).

(** ** Market details, as declared and as received *)

(** The interface [MarketData]; [V] is [number] where the code relies on
    the declared type and [jsval] where it inspects what the JSON carried.
    [current_price_usd] stands for [current_price.usd]. *)
Record MarketData (V : Type) : Type := mkMarketData {
  price_change_percentage_24h : V;
  price_change_percentage_7d : V;
  total_volume : V;
  market_cap : V;
  current_price_usd : V
}.
#[global] Arguments mkMarketData {V}.
#[global] Arguments price_change_percentage_24h {V}.
#[global] Arguments price_change_percentage_7d {V}.
#[global] Arguments total_volume {V}.
#[global] Arguments market_cap {V}.
#[global] Arguments current_price_usd {V}.

(** The fields of [CryptoDetails] that the news generator reads;
    [homepage] stands for [links.homepage]. *)
Record CryptoDetails : Type := mkCryptoDetails {
  name : string;
  market_data : MarketData jsval;
  last_updated : string;
  homepage : list string
}.

Record NewsItem : Type := mkNewsItem {
  title : string;
  url : option string;
  published_at : string;
  source : string;
  description : string
}.

(** ** Synthetic news generator *)

Definition million : number := num_of_Z 1000000.
Definition billion : number := num_of_Z 1000000000.

(** The item of the 24h move; [price] is
    [data.market_data.current_price.usd.toFixed(2)]. *)
Definition news24h (data : CryptoDetails) (priceChange : number) (price : string)
    : NewsItem :=
  {| title := name data +:+ " "
              +:+ (if num_ge priceChange zero then "gains" else "drops")
              +:+ " " +:+ toFixed2 (num_abs priceChange) +:+ "% in 24h";
     url := head (homepage data);
     published_at := last_updated data;
     source := "Market Data";
     description := "The price of " +:+ name data +:+ " has "
              +:+ (if num_ge priceChange zero then "increased" else "decreased")
              +:+ " to $" +:+ price |}.

Definition news7d (data : CryptoDetails) (weeklyChange : number) : NewsItem :=
  {| title := name data +:+ " "
              +:+ (if num_ge weeklyChange zero then "rises" else "falls")
              +:+ " " +:+ toFixed2 (num_abs weeklyChange) +:+ "% this week";
     url := head (homepage data);
     published_at := last_updated data;
     source := "Market Data";
     description := "Weekly performance shows a "
              +:+ (if num_ge weeklyChange zero then "positive" else "negative")
              +:+ " trend in " +:+ name data +:+ " price" |}.

Definition newsVolume (data : CryptoDetails) (volume : number) : NewsItem :=
  {| title := name data +:+ " records $" +:+ toFixed2 (num_div volume million)
              +:+ "M in daily trading";
     url := head (homepage data);
     published_at := last_updated data;
     source := "Market Data";
     description :=
       "24-hour trading volume reaches significant levels as market activity continues" |}.

Definition newsMarketCap (data : CryptoDetails) (cap : number) : NewsItem :=
  {| title := name data +:+ " market cap at $" +:+ toFixed2 (num_div cap billion)
              +:+ "B";
     url := head (homepage data);
     published_at := last_updated data;
     source := "Market Data";
     description := "Current market valuation reflects " +:+ name data
              +:+ "'s position in the crypto market" |}.

(** Lines 109-157 of [getCryptoNews]: the array [news] is threaded through
    the four conditional pushes. *)
Definition newsFromDetails (data : CryptoDetails) : result (list NewsItem) :=
  let md := market_data data in
  let news := [] in
  let* news :=
    match price_change_percentage_24h md with
    | JNum priceChange =>
        let* price := call_toFixed2 (current_price_usd md) in
        Ok (news ++ [news24h data priceChange price])
    | _ => Ok news
    end in
  let* news :=
    match price_change_percentage_7d md with
    | JNum weeklyChange => Ok (news ++ [news7d data weeklyChange])
    | _ => Ok news
    end in
  let* news :=
    if truthy (total_volume md) then
      let* volume := to_number (total_volume md) in
      Ok (news ++ [newsVolume data volume])
    else Ok news in
  let* news :=
    if truthy (market_cap md) then
      let* cap := to_number (market_cap md) in
      Ok (news ++ [newsMarketCap data cap])
    else Ok news in
  Ok news.

(** ** Risk score *)

Inductive Impact : Type :=
  | positive
  | negative
  | neutral.

(** An entry of the local array [factors]; its [score] is one of the
    integer literals [-10], [-5], [0], [5], [10]. *)
Record ScoredFactor : Type := mkScoredFactor {
  factor : string;
  impact : Impact;
  factor_description : string;
  score : Z
}.

(** An entry of the returned [factors], without the score. *)
Record RiskFactor : Type := mkRiskFactor {
  rf_factor : string;
  rf_impact : Impact;
  rf_description : string
}.

Record RiskAssessment : Type := mkRiskAssessment {
  risk_score : Z;
  risk_factors : list RiskFactor
}.

Definition one_tenth : number := Fin (Qc_of_ratio 1 10).

Definition scoredFactors (marketData : MarketData number) : list ScoredFactor :=
  let change24h := price_change_percentage_24h marketData in
  let change7d := price_change_percentage_7d marketData in
  let cap := market_cap marketData in
  let volume := total_volume marketData in
  [ {| factor := "24h Price Change";
       impact := if num_gt change24h zero then positive else negative;
       factor_description :=
         toFixed2 (num_abs change24h) +:+ "% "
         +:+ (if num_gt change24h zero then "increase" else "decrease")
         +:+ " in the last 24 hours";
       score := if num_gt (num_abs change24h) (num_of_Z 10) then -10 else 0 |};
    {| factor := "Weekly Trend";
       impact := if num_gt change7d zero then positive else negative;
       factor_description :=
         toFixed2 (num_abs change7d) +:+ "% "
         +:+ (if num_gt change7d zero then "gain" else "loss")
         +:+ " over the past week";
       score := if num_gt change7d zero then 5 else -5 |};
    {| factor := "Market Cap";
       impact := if num_gt cap billion then positive else neutral;
       factor_description :=
         "Market cap of $" +:+ toFixed2 (num_div cap billion) +:+ "B";
       score := if num_gt cap billion then 10 else 0 |};
    {| factor := "Trading Volume";
       impact := if num_gt volume (num_mul cap one_tenth) then positive else neutral;
       factor_description :=
         "Daily trading volume of $" +:+ toFixed2 (num_div volume million) +:+ "M";
       score := if num_gt volume (num_mul cap one_tenth) then 5 else 0 |} ].

Definition calculateRiskScore (marketData : MarketData number) : RiskAssessment :=
  let factors := scoredFactors marketData in
  let baseScore := 70%Z in
  let totalScore := fold_left (fun acc f => (acc + score f)%Z) factors baseScore in
  let normalizedScore := Z.max 0 (Z.min 100 totalScore) in
  {| risk_score := normalizedScore;
     risk_factors :=
       map (fun f => {| rf_factor := factor f;
                        rf_impact := impact f;
                        rf_description := factor_description f |}) factors |}.

(** ** Portfolio valuation *)

Record PortfolioItem : Type := mkPortfolioItem {
  id : string;
  cryptoId : string;
  symbol : string;
  amount : number;
  initialInvestment : number;
  purchaseDate : string
}.

(** The property names that every object created by a literal inherits
    from [Object.prototype] (ECMAScript, with its annex B). *)
Definition object_prototype_names : list string :=
  [ "constructor"; "hasOwnProperty"; "isPrototypeOf"; "propertyIsEnumerable";
    "toLocaleString"; "toString"; "valueOf";
    "__defineGetter__"; "__defineSetter__";
    "__lookupGetter__"; "__lookupSetter__"; "__proto__" ].

Definition inherited_name (k : string) : bool :=
  existsb (String.eqb k) object_prototype_names.

(** [prices[k] ?? 0] on a record of numbers whose prototype is
    [Object.prototype]: an entry of the record itself comes first; a name
    without an entry that the prototype defines reads as a function (or,
    for [__proto__], as the prototype), which is neither [null] nor
    [undefined] and is [NaN] in the arithmetic that follows; any other
    name is [undefined] and gives 0. *)
Definition read_price (p : gmap string number) (k : string) : number :=
  match p !! k with
  | Some n => n
  | None => if inherited_name k then NaN else zero
  end.

(** [prices?.[item.cryptoId] ?? 0]; the query result [prices] is
    [undefined] until the first fetch settles, and an asset whose fetch
    failed has no entry. *)
Definition currentPrice (prices : option (gmap string number))
    (item : PortfolioItem) : number :=
  match prices with
  | Some p => read_price p (cryptoId item)
  | None => zero
  end.

Definition hundred : number := num_of_Z 100.

Definition totalValue (prices : option (gmap string number))
    (portfolio : list PortfolioItem) : number :=
  fold_left
    (fun sum item => num_add sum (num_mul (currentPrice prices item) (amount item)))
    portfolio zero.

Definition totalInvestment (portfolio : list PortfolioItem) : number :=
  fold_left (fun sum item => num_add sum (initialInvestment item)) portfolio zero.

Definition totalProfit (prices : option (gmap string number))
    (portfolio : list PortfolioItem) : number :=
  num_sub (totalValue prices portfolio) (totalInvestment portfolio).

Definition profitPercentage (prices : option (gmap string number))
    (portfolio : list PortfolioItem) : number :=
  if num_gt (totalInvestment portfolio) zero
  then num_mul
         (num_div (num_sub (totalValue prices portfolio) (totalInvestment portfolio))
                  (totalInvestment portfolio))
         hundred
  else zero.

(** The values computed for one table row (lines 317-321). *)
Record RowMetrics : Type := mkRowMetrics {
  row_currentPrice : number;
  row_purchasePrice : number;
  row_currentValue : number;
  row_profit : number;
  row_profitPercentage : number
}.

Definition rowMetrics (prices : option (gmap string number))
    (item : PortfolioItem) : RowMetrics :=
  let currentPrice := currentPrice prices item in
  let purchasePrice := num_div (initialInvestment item) (amount item) in
  let currentValue := num_mul currentPrice (amount item) in
  let profit := num_sub currentValue (initialInvestment item) in
  let profitPercentage := num_mul (num_div profit (initialInvestment item)) hundred in
  {| row_currentPrice := currentPrice;
     row_purchasePrice := purchasePrice;
     row_currentValue := currentValue;
     row_profit := profit;
     row_profitPercentage := profitPercentage |}.

(** ** Input validation *)

(** What the form submits: four strings. *)
Record AddInvestmentForm : Type := mkAddInvestmentForm {
  form_cryptoId : string;
  form_symbol : string;
  form_amount : string;
  form_initialInvestment : string
}.

(** [AddInvestmentInput], the output of the schema. *)
Record AddInvestmentInput : Type := mkAddInvestmentInput {
  in_cryptoId : string;
  in_symbol : string;
  in_amount : number;
  in_initialInvestment : number
}.

(** The outcome of parsing: the parsed value, the issues collected by the
    [min] checks, or the error thrown by a [transform]. *)
Inductive validation (A : Type) : Type :=
  | Valid (a : A)
  | Issues (msgs : list string)
  | Throws (msg : string).
#[global] Arguments Valid {A} a.
#[global] Arguments Issues {A} msgs.
#[global] Arguments Throws {A} msg.

(** The [transform] of a numeric field, with its two messages. *)
Definition transformNumber (invalid negative_msg val : string) : string + number :=
  let num := StringToNumber val in
  if num_isNaN num then inl invalid
  else if num_lt num zero then inl negative_msg
  else inr num.

Definition min1 (msg val : string) : list string :=
  if (String.length val <? 1)%nat then [msg] else [].

(** [addInvestmentSchema.parse]: the fields are parsed in the order of the
    shape; a [min] check records an issue and parsing goes on, an error
    thrown by a [transform] ends it. *)
Definition addInvestmentSchema (data : AddInvestmentForm)
    : validation AddInvestmentInput :=
  let issues :=
    (min1 "Cryptocurrency is required" (form_cryptoId data)
     ++ min1 "Symbol is required" (form_symbol data))%list in
  match transformNumber "Invalid amount" "Amount must be positive" (form_amount data) with
  | inl msg => Throws msg
  | inr amount =>
      match transformNumber "Invalid investment amount" "Investment must be positive"
                            (form_initialInvestment data) with
      | inl msg => Throws msg
      | inr initialInvestment =>
          match issues with
          | [] => Valid {| in_cryptoId := form_cryptoId data;
                           in_symbol := form_symbol data;
                           in_amount := amount;
                           in_initialInvestment := initialInvestment |}
          | _ => Issues issues
          end
      end
  end.

End Runtime.

(** ** Notions of the specification *)

(** The numeric quote-currency price that a parsed body carries for an
    asset key, if it carries one: [fields[cryptoId].usd] is a number. *)
Definition numeric_price (fields : gmap string jsval) (cryptoId : string)
    : option number :=
  match fields !! cryptoId with
  | Some (JObj entry) =>
      match entry !! "usd" with
      | Some (JNum n) => Some n
      | _ => None
      end
  | _ => None
  end.

(** The value that a parsed body carries at [fields[cryptoId].usd]:
    [undefined] when the asset key has no entry, or the entry is not an
    object, or the entry has no [usd]. *)
Definition carried_price (fields : gmap string jsval) (cryptoId : string) : jsval :=
  match fields !! cryptoId with
  | Some (JObj entry) => default JUndefined (entry !! "usd")
  | _ => JUndefined
  end.

(** The sum of [f] over a list, the terms added one after the other from
    the first to the last, starting from [acc]. *)
Fixpoint sum_from {A : Type} (f : A -> number) (acc : number) (l : list A)
    : number :=
  match l with
  | [] => acc
  | x :: l' => sum_from f (num_add acc (f x)) l'
  end.

Definition sum_in_order {A : Type} (f : A -> number) (l : list A) : number :=
  sum_from f zero l.

Definition list_sum_Z (l : list Z) : Z := fold_right Z.add 0%Z l.

(** The spot price that the batch resolution reports for an asset, absent
    when its fetch failed or no result has arrived yet. *)
Definition spot_price (prices : option (gmap string number)) (assetId : string)
    : option number :=
  prices ≫= (fun p => p !! assetId).

(** The row that the portfolio shows for an accepted submission, once the
    server has stored it under an identifier and a purchase date. *)
Definition storedItem (input : AddInvestmentInput) (itemId date : string)
    : PortfolioItem :=
  {| id := itemId;
     cryptoId := in_cryptoId input;
     symbol := in_symbol input;
     amount := in_amount input;
     initialInvestment := in_initialInvestment input;
     purchaseDate := date |}.

(** [needle] occurs in [hay]. *)
Fixpoint contains (needle hay : string) : bool :=
  String.prefix needle hay ||
  match hay with
  | EmptyString => false
  | String _ hay' => contains needle hay'
  end.

(** The number under a value that [typeof] reports as a number. *)
Definition as_number (v : jsval) : number :=
  match v with JNum n => n | _ => NaN end.

(** The number in the headline of a volume or market-cap item: the field
    is coerced to a number, which may throw, only when it is truthy. *)
Definition coerced_when_truthy (other : string -> number)
    (array : list jsval -> result number) (v : jsval) : result number :=
  if truthy v then to_number other array v else Ok NaN.

(** A list with [x] when [b] holds, and empty otherwise. *)
Definition when {A : Type} (b : bool) (x : A) : list A :=
  if b then [x] else [].

(** Decidable equality on numbers, for closed computations. *)
Definition number_beq (x y : number) : bool :=
  match x, y with
  | Fin a, Fin b => Qc_eqb a b
  | PInf, PInf | NInf, NInf | NaN, NaN => true
  | _, _ => false
  end.

(** ** Sample inputs *)

Definition too_many_requests : Response :=
  mkResponse 429 "Too Many Requests" None.

Definition server_error : Response :=
  mkResponse 500 "Internal Server Error" None.

Definition empty_success : Response := mkResponse 200 "OK" None.

(** A network that answers every call with a 429. *)
Definition always_429 : network := fun _ _ => Responds too_many_requests.

(** A network that answers every call with a 500. *)
Definition always_500 : network := fun _ _ => Responds server_error.

(** A network that answers the first call with a 500 and then succeeds. *)
Definition once_500 : network := fun _ i =>
  match i with
  | O => Responds server_error
  | S _ => Responds empty_success
  end.

(** The body [{"bitcoin": {"usd": v}}]. *)
Definition bitcoin_quote (v : jsval) : jsval :=
  JObj {[ "bitcoin" := JObj {[ "usd" := v ]} ]}.

(** A network that answers every call with that body. *)
Definition quotes (v : jsval) : network := fun _ _ =>
  Responds (mkResponse 200 "OK" (Some (bitcoin_quote v))).

Definition holding (asset : string) (quantity cost : Z) : PortfolioItem :=
  {| id := asset; cryptoId := asset; symbol := asset;
     amount := num_of_Z quantity; initialInvestment := num_of_Z cost;
     purchaseDate := "2024-01-01" |}.

(** A position whose quantity is [Infinity], the number that a JSON
    numeral beyond the range of the doubles is parsed to. *)
Definition unbounded_holding (asset : string) : PortfolioItem :=
  {| id := asset; cryptoId := asset; symbol := asset;
     amount := PInf; initialInvestment := num_of_Z 5;
     purchaseDate := "2024-01-01" |}.

(** Prices after asset [A] resolved to 10 and the fetch for [B] failed. *)
Definition only_A : option (gmap string number) := Some {[ "A" := num_of_Z 10 ]}.

(** The snapshot of the specification's scenario: 24h change 12, 7d change
    -3, volume 3e8, market cap 2e9; the current price is left open. *)
Definition scenario {V : Type} (of_Z : Z -> V) (price : V) : MarketData V :=
  {| price_change_percentage_24h := of_Z 12%Z;
     price_change_percentage_7d := of_Z (-3)%Z;
     total_volume := of_Z 300000000%Z;
     market_cap := of_Z 2000000000%Z;
     current_price_usd := price |}.

Definition scenario_json (price : number) : MarketData jsval :=
  scenario (fun z => JNum (num_of_Z z)) (JNum price).

(** The same snapshot with a trading volume of 0. *)
Definition scenario_without_volume (price : number) : MarketData jsval :=
  {| price_change_percentage_24h := JNum (num_of_Z 12);
     price_change_percentage_7d := JNum (num_of_Z (-3));
     total_volume := JNum zero;
     market_cap := JNum (num_of_Z 2000000000);
     current_price_usd := JNum price |}.

Definition bitcoin (md : MarketData jsval) : CryptoDetails :=
  {| name := "Bitcoin"; market_data := md;
     last_updated := "2024-01-01T00:00:00.000Z";
     homepage := ["https://bitcoin.org"] |}.

(** A runtime for the closed examples; none of them reaches the open parts. *)
Definition other_is_NaN : string -> number := fun _ => NaN.
Definition array_is_NaN : list jsval -> result number := fun _ => Ok NaN.
Definition no_exponent : Qc -> string := fun _ => "".

(** ** Further notions for the fetcher *)

(** The error that the [catch] block of [fetchWithRetry] records for an
    attempt, if the attempt reaches it: a response that is neither a 429
    nor a success, or a rejected [fetch]. *)
Definition recorded_error (o : fetch_outcome) : option Error :=
  match o with
  | Responds r =>
      if (status r =? 429)%Z then None
      else if ok r then None
      else Some (HttpError (status r) (statusText r))
  | Rejects (ThrownError msg) => Some (FetchError msg)
  | Rejects ThrownOther => Some NetworkRequestFailed
  end.

(** Every wait of a trace lasts between one and thirty seconds. *)
Definition waits_in_range (tr : list event) : Prop :=
  Forall (fun e => match e with
                   | EvDelay ms => (1000 <= ms <= 30000)%Z
                   | EvFetch => True
                   end) tr.

(** A network that answers a 503, then a 429 for ever. *)
Definition unavailable_then_429 : network := fun _ i =>
  match i with
  | O => Responds (mkResponse 503 "Service Unavailable" None)
  | S _ => Responds too_many_requests
  end.

(** A network whose only answer is a successful response with the given
    body. *)
Definition answers (b : option jsval) : network := fun _ _ =>
  Responds (mkResponse 200 "OK" b).

(** A snapshot whose volume and market cap are objects keyed by currency
    instead of numbers. *)
Definition per_currency_snapshot : MarketData jsval :=
  {| price_change_percentage_24h := JNum (num_of_Z 12);
     price_change_percentage_7d := JNum (num_of_Z (-3));
     total_volume := JObj {[ "usd" := JNum (num_of_Z 300000000) ]};
     market_cap := JObj {[ "usd" := JNum (num_of_Z 2000000000) ]};
     current_price_usd := JNum (num_of_Z 50000) |}.

(** A snapshot none of whose fields is usable. *)
Definition blank_snapshot : MarketData jsval :=
  {| price_change_percentage_24h := JNull;
     price_change_percentage_7d := JNull;
     total_volume := JNull;
     market_cap := JNum zero;
     current_price_usd := JUndefined |}.

(** What all items of one digest have in common. *)
Definition stamped (data : CryptoDetails) (item : NewsItem) : Prop :=
  url item = head (homepage data) /\
  published_at item = last_updated data /\
  source item = "Market Data".

(** The details with another value for the current price. *)
Definition with_price (data : CryptoDetails) (price : jsval) : CryptoDetails :=
  {| name := name data;
     market_data :=
       {| price_change_percentage_24h := price_change_percentage_24h (market_data data);
          price_change_percentage_7d := price_change_percentage_7d (market_data data);
          total_volume := total_volume (market_data data);
          market_cap := market_cap (market_data data);
          current_price_usd := price |};
     last_updated := last_updated data;
     homepage := homepage data |}.

(** A snapshot whose changes are numbers and whose current price is missing. *)
Definition priceless_snapshot : MarketData jsval :=
  {| price_change_percentage_24h := JNum (num_of_Z 12);
     price_change_percentage_7d := JNum (num_of_Z (-3));
     total_volume := JNull;
     market_cap := JNull;
     current_price_usd := JUndefined |}.

(** Extreme snapshots for the risk score. *)
Definition calm_large_cap : MarketData number :=
  {| price_change_percentage_24h := zero;
     price_change_percentage_7d := num_of_Z 1;
     total_volume := num_of_Z 300000000;
     market_cap := num_of_Z 2000000000;
     current_price_usd := zero |}.

Definition volatile_small_cap : MarketData number :=
  {| price_change_percentage_24h := num_of_Z 20;
     price_change_percentage_7d := num_of_Z (-1);
     total_volume := zero;
     market_cap := zero;
     current_price_usd := zero |}.

(** The scenario of the specification: two bitcoins bought for 10000 and
    quoted at 6000. *)
Definition two_bitcoins : PortfolioItem := holding "bitcoin" 2 10000.
Definition bitcoin_at_6000 : gmap string number := {[ "bitcoin" := num_of_Z 6000 ]}.

(** ** The stored-item schema *)

(** An issue of [z.number().min(0, msg)]: the value is not a number in the
    sense of the library (NaN), or it is below the minimum. *)
Inductive number_issue : Type :=
  | NotANumber
  | TooSmall (msg : string).

Definition checkMin0 (msg : string) (n : number) : list number_issue :=
  if num_isNaN n then [NotANumber]
  else if num_lt n zero then [TooSmall msg]
  else [].

(** [portfolioItemSchema] on a value of the declared shape: the string
    fields pass, the two numbers are checked, and the issues of both are
    collected. *)
Definition portfolioItemSchema (item : PortfolioItem)
    : PortfolioItem + list number_issue :=
  match checkMin0 "Amount must be positive" (amount item)
        ++ checkMin0 "Initial investment must be positive" (initialInvestment item) with
  | [] => inl item
  | issues => inr issues
  end.

(** What the numeric transforms of [addInvestmentSchema] let through. *)
Definition acceptable (n : number) : Prop :=
  num_isNaN n = false /\ num_lt n zero = false.

Definition sample_form (quantity cost : string) : AddInvestmentForm :=
  mkAddInvestmentForm "bitcoin" "BTC" quantity cost.

(** ** Identifiers *)

(** [ToInt32], which [| 0] applies to its operand: the fraction is cut
    off and the integer wraps into 32 bits. *)
Definition truncate (q : Qc) : Z :=
  if Qc_ltb q 0 then Qceiling (this q) else Qfloor (this q).

Definition wrap32 (z : Z) : Z := ((z + 2 ^ 31) mod 2 ^ 32 - 2 ^ 31)%Z.

Definition to_int32 (x : number) : Z :=
  match x with
  | Fin q => wrap32 (truncate q)
  | PInf | NInf | NaN => 0%Z
  end.

(** [v.toString(16)] on an integer *)
Definition toString16 (v : Z) : string :=
  match v with
  | Zneg p => "-" +:+ HexadecimalString.NilZero.string_of_uint (Pos.to_hex_uint p)
  | _ => HexadecimalString.NilZero.string_of_uint (N.to_hex_uint (Z.to_N v))
  end.

(** The replacement of one [x] or [y] of the template, from one draw of
    [Math.random()]. *)
Definition uuid_digit (c : ascii) (draw : number) : string :=
  let r := to_int32 (num_mul draw (num_of_Z 16)) in
  let v := if Ascii.eqb c "x" then r else Z.lor (Z.land r 3) 8 in
  toString16 v.

(** [template.replace(/[xy]/g, ...)]; [random k] is the draw number [k]. *)
Fixpoint replace_xy (template : string) (random : nat -> number) (k : nat) : string :=
  match template with
  | EmptyString => EmptyString
  | String c rest =>
      if Ascii.eqb c "x" || Ascii.eqb c "y"
      then uuid_digit c (random k) +:+ replace_xy rest random (S k)
      else String c (replace_xy rest random k)
  end.

Definition uuid_template : string := "xxxxxxxx-xxxx-4xxx-yxxx-xxxxxxxxxxxx".

Definition generateUUID (random : nat -> number) : string :=
  replace_xy uuid_template random 0.

(** A draw of [Math.random()]: a number from 0 up to, not including, 1. *)
Definition unit_draw (x : number) : Prop :=
  match x with
  | Fin q => (0 <= q)%Qc /\ (q < 1)%Qc
  | PInf | NInf | NaN => False
  end.

Definition is_hex_digit (c : ascii) : bool :=
  is_digit c || ((97 <=? nat_of_ascii c)%nat && (nat_of_ascii c <=? 102)%nat).

Definition is_variant_digit (c : ascii) : bool :=
  Ascii.eqb c "8" || Ascii.eqb c "9" || Ascii.eqb c "a" || Ascii.eqb c "b".

(** [s] has the layout of [template]: a hexadecimal digit for every [x],
    one of 8, 9, a, b for every [y], and the same character elsewhere. *)
Fixpoint fits (template s : string) : bool :=
  match template, s with
  | EmptyString, EmptyString => true
  | String t template', String c s' =>
      (if Ascii.eqb t "x" then is_hex_digit c
       else if Ascii.eqb t "y" then is_variant_digit c
       else Ascii.eqb t c) && fits template' s'
  | _, _ => false
  end.

(** The random source all of whose draws are one half. *)
Definition always_half : nat -> number := fun _ => Fin (Qc_of_ratio 1 2).

(** ** Batch price resolution *)

(** [Array.from(new Set(ids))]: the first occurrence of every identifier,
    in order; [seen] are the identifiers met so far. *)
Fixpoint unique (seen ids : list string) : list string :=
  match ids with
  | [] => []
  | x :: rest =>
      if bool_decide (x ∈ seen) then unique seen rest
      else x :: unique (x :: seen) rest
  end.

Definition uniqueCryptoIds (portfolio : list PortfolioItem) : list string :=
  unique [] (map cryptoId portfolio).

(** The prototype of the record [prices]: [Object.prototype] as the
    literal [{}] sets it, or what an assignment to [__proto__] replaced it
    with, which is [null] or an object or array of a parsed body. *)
Inductive Prototype : Type :=
  | ObjectPrototype
  | NullPrototype
  | ParsedObject (fields : gmap string jsval)
  | ParsedArray (elems : list jsval).

(** The record [prices] while the callbacks fill it: the entries of its
    own and its prototype. *)
Record PriceRecord : Type := mkPriceRecord {
  own_prices : gmap string jsval;
  prototype : Prototype
}.

Definition empty_record : PriceRecord :=
  {| own_prices := ∅; prototype := ObjectPrototype |}.

(** The values that the setter of [__proto__] installs as a prototype;
    it ignores every other value. *)
Definition as_prototype (v : jsval) : option Prototype :=
  match v with
  | JNull => Some NullPrototype
  | JObj fields => Some (ParsedObject fields)
  | JArr elems => Some (ParsedArray elems)
  | _ => None
  end.

(** Whether a write to [__proto__] reaches the accessor of
    [Object.prototype]: no entry of that name on the record itself or on a
    parsed object before it, and a prototype chain that ends there. *)
Definition reaches_accessor (prices : PriceRecord) : bool :=
  match own_prices prices !! "__proto__" with
  | Some _ => false
  | None =>
      match prototype prices with
      | ObjectPrototype | ParsedArray _ => true
      | NullPrototype => false
      | ParsedObject fields =>
          match fields !! "__proto__" with
          | Some _ => false
          | None => true
          end
      end
  end.

(** [prices[k] = v].  Every key but [__proto__] gets an entry of the
    record's own; a write to [__proto__] that reaches the accessor changes
    the prototype, or nothing when [v] is not an object. *)
Definition assign (prices : PriceRecord) (k : string) (v : jsval) : PriceRecord :=
  if String.eqb k "__proto__" && reaches_accessor prices then
    match as_prototype v with
    | Some p => {| own_prices := own_prices prices; prototype := p |}
    | None => prices
    end
  else {| own_prices := <[k := v]> (own_prices prices);
          prototype := prototype prices |}.

(** The callback run for one asset: the price is assigned under the
    asset's identifier, and a failure is caught (and shown as a toast)
    without touching the record. *)
Definition resolvePrice (net : network) (prices : PriceRecord)
    (cryptoId : string) : PriceRecord :=
  match fst (getCryptoPrice net cryptoId) with
  | Ok price => assign prices cryptoId price
  | Err _ => prices
  end.

(** The query function, once every callback has settled.  The callbacks
    run concurrently; each assigns under its own key, once, so the record
    does not depend on the order in which they finish, and they are folded
    here in the order of the identifiers. *)
Definition fetchPrices (net : network) (portfolio : list PortfolioItem)
    : PriceRecord :=
  fold_left (resolvePrice net) (uniqueCryptoIds portfolio) empty_record.

(** The assets for which the warning toast is shown. *)
Definition failedAssets (net : network) (portfolio : list PortfolioItem)
    : list string :=
  List.filter (fun cryptoId => match fst (getCryptoPrice net cryptoId) with
                               | Ok _ => false
                               | Err _ => true
                               end)
              (uniqueCryptoIds portfolio).

(** The settled data of the query, which is enabled only for a portfolio
    that is not empty. *)
Definition pricesQuery (net : network) (portfolio : list PortfolioItem)
    : option PriceRecord :=
  match portfolio with
  | [] => None
  | _ :: _ => Some (fetchPrices net portfolio)
  end.

(** The entries of the record read at its declared type
    [Record<string, number>]. *)
Definition declared_prices (prices : option PriceRecord)
    : option (gmap string number) :=
  match prices with
  | Some r => Some (as_number <$> own_prices r)
  | None => None
  end.

(** A network on which asset [A] is quoted at 10 and every call for
    another asset is answered by a 500. *)
Definition only_A_answers : network := fun url _ =>
  if String.eqb url (price_url "A")
  then Responds (mkResponse 200 "OK"
                   (Some (JObj {[ "A" := JObj {[ "usd" := JNum (num_of_Z 10) ]} ]})))
  else Responds server_error.

(** A network that quotes, for the asset [__proto__], an object. *)
Definition proto_answers : network := fun _ _ =>
  Responds (mkResponse 200 "OK"
              (Some (JObj {[ "__proto__" :=
                               JObj {[ "usd" := JObj {[ "A" := JNum (num_of_Z 10) ]} ]} ]}))).

(** ** Market details and price history *)

(** What [getCryptoDetails] and [getCryptoPriceHistory] throw.  Their
    [catch] block builds a new [Error] from the message of whatever was
    thrown inside: an error of the fetcher, of [response.json()] or of a
    property read ([MessageOf]), or one of the errors they raise
    themselves. *)
Inductive ApiFailure : Type :=
  | MessageOf (e : Error)
  | FailedToFetchDetails (text : string)
  | InvalidMarketData
  | FailedToFetchHistory (text : string)
  | InvalidHistoryData.

Definition failure_message (f : ApiFailure) : string :=
  match f with
  | MessageOf e => message e
  | FailedToFetchDetails text => "Failed to fetch crypto details: " +:+ text
  | InvalidMarketData => "Invalid market data received"
  | FailedToFetchHistory text => "Failed to fetch price history: " +:+ text
  | InvalidHistoryData => "Invalid price history data received"
  end.

Definition details_url (cryptoId : string) : string :=
  "https://api.coingecko.com/api/v3/coins/" +:+ cryptoId
    +:+ "?localization=false&tickers=false&community_data=false&developer_data=false&sparkline=false".

Definition getCryptoDetails (net : network) (cryptoId : string)
    : (ApiFailure + jsval) * list event :=
  let '(fetched, tr) := fetchWithRetry net (details_url cryptoId) 3 in
  (match fetched with
   | Err e => inl (MessageOf e)
   | Ok response =>
       if negb (ok response) then inl (FailedToFetchDetails (statusText response))
       else
         match json response with
         | Err e => inl (MessageOf e)
         | Ok data =>
             match get_prop data "market_data" with
             | Err e => inl (MessageOf e)
             | Ok md => if negb (truthy md) then inl InvalidMarketData else inr data
             end
         end
   end, tr).

Record PriceHistoryPoint : Type := mkPriceHistoryPoint {
  timestamp : jsval;
  price : jsval
}.

(** The character of a string at a position, as a string of its own. *)
Definition char_at (i : nat) (s : string) : jsval :=
  match String.get i s with
  | Some c => JStr (String c EmptyString)
  | None => JUndefined
  end.

(** The parameter pattern [[timestamp, price]] applied to one element of
    the series: the first two values that the element yields when it is
    iterated, [undefined] where it yields none; a value that cannot be
    iterated throws.  A string yields its characters. *)
Definition destructure_pair (elem : jsval) : result PriceHistoryPoint :=
  match elem with
  | JArr values =>
      Ok {| timestamp := nth 0 values JUndefined; price := nth 1 values JUndefined |}
  | JStr s => Ok {| timestamp := char_at 0 s; price := char_at 1 s |}
  | JUndefined | JNull | JBool _ | JNum _ | JObj _ => Err TypeError
  end.

(** [data.prices.map(...)] *)
Fixpoint map_points (elems : list jsval) : result (list PriceHistoryPoint) :=
  match elems with
  | [] => Ok []
  | elem :: rest =>
      let* point := destructure_pair elem in
      let* points := map_points rest in
      Ok (point :: points)
  end.

(** [Array.isArray] *)
Definition isArray (v : jsval) : bool :=
  match v with JArr _ => true | _ => false end.

(** The number of days is a whole number. *)
Definition history_url (cryptoId : string) (days : Z) : string :=
  "https://api.coingecko.com/api/v3/coins/" +:+ cryptoId
    +:+ "/market_chart?vs_currency=usd&days=" +:+ string_of_Z days.

Definition getCryptoPriceHistory (net : network) (cryptoId : string) (days : Z)
    : (ApiFailure + list PriceHistoryPoint) * list event :=
  let '(fetched, tr) := fetchWithRetry net (history_url cryptoId days) 3 in
  (match fetched with
   | Err e => inl (MessageOf e)
   | Ok response =>
       if negb (ok response) then inl (FailedToFetchHistory (statusText response))
       else
         match json response with
         | Err e => inl (MessageOf e)
         | Ok data =>
             match get_prop data "prices" with
             | Err e => inl (MessageOf e)
             | Ok prices =>
                 if negb (truthy prices) || negb (isArray prices)
                 then inl InvalidHistoryData
                 else
                   match prices with
                   | JArr elems =>
                       match map_points elems with
                       | Ok points => inr points
                       | Err e => inl (MessageOf e)
                       end
                   | _ => inl InvalidHistoryData
                   end
             end
         end
   end, tr).

(** The series [[t1, p1], [t2, p2], ...] as the provider sends it. *)
Definition series (pairs : list (jsval * jsval)) : jsval :=
  JArr (map (fun tp => JArr [fst tp; snd tp]) pairs).

Definition three_days : list (jsval * jsval) :=
  [ (JNum (num_of_Z 1700000000000), JNum (num_of_Z 100));
    (JNum (num_of_Z 1700086400000), JNum (num_of_Z 110));
    (JNum (num_of_Z 1700172800000), JNum (num_of_Z 105)) ].

(** A body with a market-data section. *)
Definition details_body : jsval :=
  JObj {[ "id" := JStr "bitcoin"; "market_data" := JObj ∅ ]}.

(** ** The asset table and the asset select *)

(** [cryptoIds]: display symbol to asset identifier. *)
Definition cryptoIds_entries : list (string * string) :=
  [ ("BTC", "bitcoin"); ("ETH", "ethereum"); ("BNB", "binancecoin");
    ("XRP", "ripple"); ("DOGE", "dogecoin"); ("ADA", "cardano");
    ("SOL", "solana") ].

Definition cryptoIds : gmap string string := list_to_map cryptoIds_entries.

(** The options of the select: value and label. *)
Definition cryptocurrencies : list (string * string) :=
  [ ("BTC", "Bitcoin (BTC)"); ("ETH", "Ethereum (ETH)"); ("BNB", "BNB");
    ("XRP", "XRP"); ("DOGE", "Dogecoin (DOGE)"); ("ADA", "Cardano (ADA)");
    ("SOL", "Solana (SOL)") ].

(** The form after [onValueChange]: its four text fields, or, when the
    asset field was given a member that the table inherits (a function,
    not a text), the three others. *)
Inductive SelectedForm : Type :=
  | TextFields (form : AddInvestmentForm)
  | InheritedAsset (symbol amount initialInvestment : string).

(** [onValueChange] of the asset select of the add-investment form: when
    [cryptoIds[value]] is truthy it becomes the asset of the form and the
    value its symbol.  The table is an object literal: a value without an
    entry that names a member of [Object.prototype] reads as that member,
    which is truthy. *)
Definition selectCrypto (value : string) (form : AddInvestmentForm)
    : SelectedForm :=
  match cryptoIds !! value with
  | Some cryptoId =>
      if negb (String.eqb cryptoId "")
      then TextFields {| form_cryptoId := cryptoId;
                         form_symbol := value;
                         form_amount := form_amount form;
                         form_initialInvestment := form_initialInvestment form |}
      else TextFields form
  | None =>
      if inherited_name value
      then InheritedAsset value (form_amount form) (form_initialInvestment form)
      else TextFields form
  end.

(** ** The investment calculator *)

Record CalculatorInput : Type := mkCalculatorInput {
  calc_currency : string;
  calc_crypto : string;
  calc_investment : string;
  calc_buyPrice : string;
  calc_sellPrice : string;
  calc_investmentFee : string;
  calc_exitFee : string
}.

Record CalculatorResult : Type := mkCalculatorResult {
  res_totalInvestment : number;
  res_takeHome : number;
  res_profitLoss : number;
  res_percentageChange : number
}.

(** [onSubmit] of the calculator; [parseFloat] is the conversion of the
    runtime.  No step of the computation can throw, so the [catch] block
    is never entered. *)
Definition onSubmit (parseFloat : string -> number) (data : CalculatorInput)
    : CalculatorResult :=
  let investment := parseFloat (calc_investment data) in
  let buyPrice := parseFloat (calc_buyPrice data) in
  let sellPrice := parseFloat (calc_sellPrice data) in
  let investmentFee := parseFloat (calc_investmentFee data) in
  let exitFee := parseFloat (calc_exitFee data) in
  let totalInvestment := num_add investment investmentFee in
  let grossProfit :=
    num_mul (num_sub sellPrice buyPrice) (num_div investment buyPrice) in
  let takeHome := num_sub grossProfit exitFee in
  let percentageChange :=
    num_mul (num_div (num_sub sellPrice buyPrice) buyPrice) hundred in
  {| res_totalInvestment := totalInvestment;
     res_takeHome := takeHome;
     res_profitLoss := grossProfit;
     res_percentageChange := percentageChange |}.

(** A conversion for the closed examples: plain decimals, NaN otherwise. *)
Definition parse_plain (s : string) : number :=
  match parse_decimal s with
  | Some q => Fin q
  | None => NaN
  end.

Definition sample_trade (buy sell : string) : CalculatorInput :=
  mkCalculatorInput "USD" "BTC" "1000" buy sell "10" "5".

(** * Properties *)

(** ** The retry loop *)

Section RetryLoop.

Variable net : network.
Variable url : string.
Variable attempts : nat.

Lemma ok_not_rate_limited (r : Response) : ok r = true -> (status r =? 429)%Z = false.
Proof. unfold ok. intros H. apply andb_prop in H as [_ H]. lia. Qed.

(** A rate-limited attempt records its wait and hands the loop on with
    [lastError] as it was. *)
Lemma retry_loop_rate_limited (rest i : nat) (le : option Error) :
  rate_limited (net url i) = true ->
  retry_loop net url attempts (S rest) i le =
    (fst (retry_loop net url attempts rest (S i) le),
     EvFetch :: EvDelay (backoff i) :: snd (retry_loop net url attempts rest (S i) le)).
Proof.
  intros H. simpl. destruct (net url i) as [r|t]; simpl in H; [|discriminate].
  rewrite H. now destruct (retry_loop net url attempts rest (S i) le).
Qed.

Lemma waits_from_S (i n : nat) :
  waits_from i (S n) = EvFetch :: EvDelay (backoff i) :: waits_from (S i) n.
Proof. reflexivity. Qed.

Lemma retry_loop_all_rate_limited (remaining : nat) :
  forall (i : nat) (le : option Error),
    (forall j, (i <= j < i + remaining)%nat -> rate_limited (net url j) = true) ->
    retry_loop net url attempts remaining i le =
      (Err (default MaxRetries le), waits_from i remaining).
Proof.
  induction remaining as [|rest IH]; intros i le H.
  - reflexivity.
  - rewrite retry_loop_rate_limited by (apply H; lia).
    rewrite IH by (intros j Hj; apply H; lia).
    now rewrite waits_from_S.
Qed.

(** An attempt that fails before the last one is followed by its wait. *)
Lemma retry_loop_failed (rest i : nat) (le : option Error) :
  failed_attempt (net url i) = true -> i <> (attempts - 1)%nat ->
  exists le',
    retry_loop net url attempts (S rest) i le =
      (fst (retry_loop net url attempts rest (S i) le'),
       EvFetch :: EvDelay (backoff i) :: snd (retry_loop net url attempts rest (S i) le')).
Proof.
  intros H Hi. apply Nat.eqb_neq in Hi. simpl.
  destruct (net url i) as [r|[msg|]]; simpl in H.
  - destruct (status r =? 429)%Z.
    + exists le. now destruct (retry_loop net url attempts rest (S i) le).
    + rewrite H, Hi. exists (Some (HttpError (status r) (statusText r))).
      now destruct (retry_loop _ _ _ rest (S i) _).
  - rewrite Hi. exists (Some (FetchError msg)).
    now destruct (retry_loop _ _ _ rest (S i) _).
  - rewrite Hi. exists (Some NetworkRequestFailed).
    now destruct (retry_loop _ _ _ rest (S i) _).
Qed.

Lemma retry_loop_success (rest i : nat) (le : option Error) (resp : Response) :
  net url i = Responds resp -> ok resp = true ->
  retry_loop net url attempts (S rest) i le = (Ok resp, [EvFetch]).
Proof.
  intros H Hok. simpl. rewrite H, (ok_not_rate_limited _ Hok), Hok. reflexivity.
Qed.

Lemma retry_loop_failures_then_success (n : nat) (resp : Response) :
  forall (i m : nat) (le : option Error),
    attempts = (i + n + S m)%nat ->
    (forall j, (i <= j < i + n)%nat -> failed_attempt (net url j) = true) ->
    net url (i + n)%nat = Responds resp -> ok resp = true ->
    retry_loop net url attempts (n + S m) i le =
      (Ok resp, waits_from i n ++ [EvFetch]).
Proof.
  induction n as [|n IH]; intros i m le Hatt Hfail Hresp Hok.
  - rewrite Nat.add_0_r in Hresp. now apply retry_loop_success.
  - change (S n + S m)%nat with (S (n + S m)).
    destruct (retry_loop_failed (n + S m) i le) as [le' ->]; [apply Hfail; lia|lia|].
    rewrite (IH (S i) m le'); [now rewrite waits_from_S|lia| |  |assumption].
    + intros j Hj. apply Hfail. lia.
    + now replace (S i + n)%nat with (i + S n)%nat by lia.
Qed.

(** An [HttpError] that ends the loop was recorded earlier or comes from a
    response of this run that is neither a 429 nor a success. *)
Lemma retry_loop_http_origin (remaining : nat) (code : Z) (text : string) :
  forall (i : nat) (le : option Error),
    fst (retry_loop net url attempts remaining i le) = Err (HttpError code text) ->
    le = Some (HttpError code text) \/
    exists j r, (i <= j < i + remaining)%nat /\ net url j = Responds r /\
                status r = code /\ statusText r = text /\
                status r <> 429%Z /\ ok r = false.
Proof.
  induction remaining as [|rest IH]; intros i le H.
  - simpl in H. destruct le as [e|]; simpl in H; [left|discriminate]. congruence.
  - assert (Hnext : forall le',
      fst (retry_loop net url attempts rest (S i) le') = Err (HttpError code text) ->
      le' = Some (HttpError code text) \/
      exists j r, (i <= j < i + S rest)%nat /\ net url j = Responds r /\
                  status r = code /\ statusText r = text /\
                  status r <> 429%Z /\ ok r = false).
    { intros le' H'. destruct (IH _ _ H') as [->|(j & r & Hj & Hr)]; [now left|].
      right. exists j, r. split; [lia|assumption]. }
    simpl in H. destruct (net url i) as [r|t] eqn:Hnet.
    + destruct (status r =? 429)%Z eqn:H429.
      * destruct (retry_loop net url attempts rest (S i) le) eqn:Hrun.
        simpl in H. apply Hnext. now rewrite Hrun.
      * destruct (ok r) eqn:Hok; simpl in H; [discriminate|].
        assert (Hhere : HttpError (status r) (statusText r) = HttpError code text ->
          exists j r, (i <= j < i + S rest)%nat /\ net url j = Responds r /\
                      status r = code /\ statusText r = text /\
                      status r <> 429%Z /\ ok r = false).
        { intros [= <- <-]. exists i, r. repeat split; try assumption; lia. }
        destruct (i =? attempts - 1)%nat.
        -- right. apply Hhere. simpl in H. congruence.
        -- destruct (retry_loop net url attempts rest (S i) _) eqn:Hrun.
           simpl in H. destruct (Hnext _ ltac:(now rewrite Hrun)) as [[=]|?];
             [right; apply Hhere; congruence|now right].
    + destruct t as [msg|]; destruct (i =? attempts - 1)%nat;
        try (simpl in H; discriminate);
        destruct (retry_loop net url attempts rest (S i) _) eqn:Hrun;
        simpl in H; destruct (Hnext _ ltac:(now rewrite Hrun)) as [[=]|?];
        now right.
Qed.

End RetryLoop.

(** ** Reading attempts and waits off a trace *)

Lemma attempts_made_waits (n : nat) :
  forall (i : nat) (tr : list event),
    attempts_made (waits_from i n ++ tr) = (n + attempts_made tr)%nat.
Proof.
  induction n as [|n IH]; intros i tr; [reflexivity|].
  rewrite waits_from_S. unfold attempts_made in *. simpl. now rewrite IH.
Qed.

Lemma delay_before_first (tr : list event) (seen : nat) (last : option Z) :
  delay_before_from (EvFetch :: tr) seen last (S seen) = last.
Proof. simpl. now rewrite Nat.eqb_refl. Qed.

Lemma delay_before_later (tr : list event) (seen : nat) (last : option Z)
    (ms : Z) (idx : nat) :
  S seen <> idx ->
  delay_before_from (EvFetch :: EvDelay ms :: tr) seen last idx =
    delay_before_from tr (S seen) (Some ms) idx.
Proof.
  intros H. cbn [delay_before_from].
  now destruct (Nat.eqb_spec (S seen) idx).
Qed.

(** In a run of [n] waits closed by one more attempt, every attempt after
    the first is preceded by the wait of the attempt before it. *)
Lemma delay_before_waits (n : nat) :
  forall (i0 seen : nat) (last : option Z) (idx : nat),
    (seen + 1 < idx <= seen + n + 1)%nat ->
    delay_before_from (waits_from i0 n ++ [EvFetch]) seen last idx =
      Some (backoff (i0 + (idx - seen - 2))).
Proof.
  induction n as [|n IH]; intros i0 seen last idx H; [lia|].
  rewrite waits_from_S. cbn [app]. rewrite delay_before_later by lia.
  destruct (Nat.eq_dec idx (S (S seen))) as [->|Hne].
  - replace (S (S seen) - seen - 2)%nat with 0%nat by lia. rewrite Nat.add_0_r.
    destruct n; [apply delay_before_first|].
    rewrite waits_from_S. apply delay_before_first.
  - rewrite IH by lia. do 2 f_equal. lia.
Qed.

(** ** Claims on the fetcher *)

(** C1. A 429 response is not recorded as a failure: the loop waits
    [min(1000 * 2^i, 30000)] ms and goes on with [lastError] unchanged; a
    run whose attempts are all answered by 429 ends with the generic
    "Maximum retry attempts reached" error, never with an HTTP error; and
    whenever a run does end with an HTTP error, that error comes from a
    response of the run that is not a 429. *)
Theorem rate_limit_is_not_a_failure (net : network) (url : string) (attempts : nat) :
  (forall rest i le,
     rate_limited (net url i) = true ->
     retry_loop net url attempts (S rest) i le =
       (fst (retry_loop net url attempts rest (S i) le),
        EvFetch :: EvDelay (Z.min (1000 * 2 ^ Z.of_nat i) 30000)
          :: snd (retry_loop net url attempts rest (S i) le))) /\
  ((forall i, (i < attempts)%nat -> rate_limited (net url i) = true) ->
   fetchWithRetry net url attempts = (Err MaxRetries, waits_from 0 attempts) /\
   message MaxRetries = "Maximum retry attempts reached" /\
   forall code text, fst (fetchWithRetry net url attempts) <> Err (HttpError code text)) /\
  (forall code text,
     fst (fetchWithRetry net url attempts) = Err (HttpError code text) ->
     exists j r, (j < attempts)%nat /\ net url j = Responds r /\
                 status r = code /\ status r <> 429%Z /\ ok r = false).
Proof.
  split; [|split].
  - intros rest i le H. now apply retry_loop_rate_limited.
  - intros H.
    assert (E : fetchWithRetry net url attempts = (Err MaxRetries, waits_from 0 attempts)).
    { unfold fetchWithRetry. rewrite retry_loop_all_rate_limited; [reflexivity|].
      intros j Hj. apply H. lia. }
    split; [exact E|]. split; [reflexivity|]. intros code text. now rewrite E.
  - intros code text H. unfold fetchWithRetry in H.
    apply retry_loop_http_origin in H as [H|(j & r & Hj & Hr & Hc & _ & Hn & Hok)];
      [discriminate|].
    exists j, r. repeat split; try assumption; lia.
Qed.

(** C2, as amended. With [k - 1] failed attempts followed by a success,
    [k] within the budget, the run returns that response after exactly [k]
    attempts, and the wait before attempt [i] ([2 <= i <= k]) is
    [min(1000 * 2^(i-2), 30000)] ms. *)
Theorem failures_then_success (net : network) (url : string) (attempts k : nat)
    (resp : Response) :
  (1 <= k <= attempts)%nat ->
  (forall j, (j < k - 1)%nat -> failed_attempt (net url j) = true) ->
  net url (k - 1)%nat = Responds resp ->
  ok resp = true ->
  fst (fetchWithRetry net url attempts) = Ok resp /\
  attempts_made (snd (fetchWithRetry net url attempts)) = k /\
  forall i, (2 <= i <= k)%nat ->
    delay_before (snd (fetchWithRetry net url attempts)) i =
      Some (Z.min (1000 * 2 ^ (Z.of_nat i - 2)) 30000).
Proof.
  intros Hk Hfail Hresp Hok.
  assert (E : fetchWithRetry net url attempts =
              (Ok resp, waits_from 0 (k - 1) ++ [EvFetch])).
  { unfold fetchWithRetry.
    replace attempts with ((k - 1) + S (attempts - k))%nat at 2 by lia.
    apply retry_loop_failures_then_success; try assumption; [lia|].
    intros j Hj. apply Hfail. lia. }
  rewrite E. cbn [fst snd]. split; [reflexivity|]. split.
  - rewrite attempts_made_waits. change (attempts_made [EvFetch]) with 1%nat. lia.
  - intros i Hi. unfold delay_before. rewrite delay_before_waits by lia.
    unfold backoff.
    now replace (Z.of_nat (0 + (i - 0 - 2))) with (Z.of_nat i - 2)%Z by lia.
Qed.

Lemma rate_limit_is_not_a_failure_witness :
  retry_loop always_429 "u" 3 3 0 None =
    (fst (retry_loop always_429 "u" 3 2 1 None),
     EvFetch :: EvDelay 1000 :: snd (retry_loop always_429 "u" 3 2 1 None)) /\
  fetchWithRetry always_429 "u" 3 =
    (Err MaxRetries,
     [EvFetch; EvDelay 1000; EvFetch; EvDelay 2000; EvFetch; EvDelay 4000]) /\
  exists j r, (j < 1)%nat /\ always_500 "u" j = Responds r /\
              status r = 500%Z /\ status r <> 429%Z /\ ok r = false.
Proof.
  split; [|split].
  - apply (proj1 (rate_limit_is_not_a_failure always_429 "u" 3) 2%nat 0%nat None).
    reflexivity.
  - apply (proj1 (proj2 (rate_limit_is_not_a_failure always_429 "u" 3))).
    intros i _. reflexivity.
  - apply (proj2 (proj2 (rate_limit_is_not_a_failure always_500 "u" 1))
             500%Z "Internal Server Error").
    reflexivity.
Defined.

Lemma failures_then_success_witness :
  fst (fetchWithRetry once_500 "u" 3) = Ok empty_success /\
  attempts_made (snd (fetchWithRetry once_500 "u" 3)) = 2%nat /\
  forall i, (2 <= i <= 2)%nat ->
    delay_before (snd (fetchWithRetry once_500 "u" 3)) i =
      Some (Z.min (1000 * 2 ^ (Z.of_nat i - 2)) 30000).
Proof.
  apply (failures_then_success once_500 "u" 3 2 empty_success).
  - lia.
  - intros j Hj. assert (j = 0%nat) as -> by lia. reflexivity.
  - reflexivity.
  - reflexivity.
Defined.

(** C2 as stated fails: after one failure the second attempt is preceded
    by a wait of 1000 ms, not of [min(1000 * 2^(2-1), 30000)] = 2000 ms. *)
Lemma backoff_exponent_counterexample :
  (forall j, (j < 2 - 1)%nat -> failed_attempt (once_500 "u" j) = true) /\
  once_500 "u" (2 - 1)%nat = Responds empty_success /\
  ok empty_success = true /\
  fst (fetchWithRetry once_500 "u" 3) = Ok empty_success /\
  attempts_made (snd (fetchWithRetry once_500 "u" 3)) = 2%nat /\
  delay_before (snd (fetchWithRetry once_500 "u" 3)) 2 = Some 1000%Z /\
  delay_before (snd (fetchWithRetry once_500 "u" 3)) 2 <>
    Some (Z.min (1000 * 2 ^ (2 - 1)) 30000).
Proof.
  repeat split; try reflexivity.
  - intros j Hj. assert (j = 0%nat) as -> by lia. reflexivity.
  - discriminate.
Qed.

(** ** Spot price *)

Lemma string_of_uint_not_usd (u : Decimal.uint) :
  String.eqb (NilZero.string_of_uint u) "usd" = false.
Proof. now destruct u. Qed.

Lemma arr_get_usd (elems : list jsval) : arr_get elems "usd" = JUndefined.
Proof.
  unfold arr_get. cbn [String.eqb Ascii.eqb Bool.eqb].
  destruct (List.find _ _) as [i|] eqn:E; [|reflexivity].
  apply find_some in E as [_ E]. unfold string_of_Z in E.
  destruct (Z.of_nat i); cbn beta iota in E;
    [now rewrite string_of_uint_not_usd in E..|discriminate].
Qed.

Lemma getCryptoPrice_fetched (net : network) (cryptoId : string)
    (response : Response) (tr : list event) (data : jsval) :
  fetchWithRetry net (price_url cryptoId) 3 = (Ok response, tr) ->
  body response = Some data ->
  getCryptoPrice net cryptoId = (priceFromBody data cryptoId, tr).
Proof.
  intros H Hb. unfold getCryptoPrice. rewrite H. cbn [bind]. unfold json.
  now rewrite Hb.
Qed.

(** The price check on a body that is a JSON object, by what the body
    carries under the asset key: a truthy value is returned as it is, and
    anything else is rejected. *)
Lemma priceFromBody_carried (fields : gmap string jsval) (cryptoId : string) :
  priceFromBody (JObj fields) cryptoId =
    if truthy (carried_price fields cryptoId)
    then Ok (carried_price fields cryptoId)
    else Err InvalidPriceData.
Proof.
  unfold carried_price, priceFromBody. cbn [get_prop bind].
  destruct (fields !! cryptoId) as [[| |b|m|s|elems|entry]|];
    cbn [from_option Datatypes.id get_prop_opt get_prop bind truthy negb];
    try reflexivity.
  - now rewrite arr_get_usd.
  - now destruct (truthy (default JUndefined (entry !! "usd"))).
Qed.

Lemma carried_price_numeric (fields : gmap string jsval) (cryptoId : string)
    (n : number) :
  numeric_price fields cryptoId = Some n <-> carried_price fields cryptoId = JNum n.
Proof.
  unfold numeric_price, carried_price.
  destruct (fields !! cryptoId) as [[| | | | | |entry]|];
    try (split; discriminate).
  destruct (entry !! "usd") as [[| | |m| | |]|]; cbn [from_option Datatypes.id];
    try (split; discriminate).
  split; now intros [= ->].
Qed.

(** C3, as amended. On a body that is a JSON object the call returns the
    value found at [body[cryptoId].usd] when that value is truthy, and
    fails with "Invalid price data received" otherwise.  So a numeric
    price is returned unless it is 0 or [NaN]; a truthy value that is not
    a number, such as the string ["12"], is returned as it is; and the
    error is raised exactly when the value is absent or falsy. *)
Theorem spot_price_requires_truthy (net : network) (cryptoId : string)
    (response : Response) (tr : list event) (fields : gmap string jsval) :
  fetchWithRetry net (price_url cryptoId) 3 = (Ok response, tr) ->
  body response = Some (JObj fields) ->
  fst (getCryptoPrice net cryptoId) =
    (if truthy (carried_price fields cryptoId)
     then Ok (carried_price fields cryptoId)
     else Err InvalidPriceData) /\
  (forall n, numeric_price fields cryptoId = Some n ->
     fst (getCryptoPrice net cryptoId) =
       if num_eq n zero || num_isNaN n then Err InvalidPriceData else Ok (JNum n)) /\
  (numeric_price fields cryptoId = None ->
   truthy (carried_price fields cryptoId) = true ->
   fst (getCryptoPrice net cryptoId) = Ok (carried_price fields cryptoId) /\
   is_number (carried_price fields cryptoId) = false) /\
  (fst (getCryptoPrice net cryptoId) = Err InvalidPriceData <->
   truthy (carried_price fields cryptoId) = false).
Proof.
  intros H Hb. rewrite (getCryptoPrice_fetched _ _ _ _ _ H Hb). cbn [fst].
  rewrite priceFromBody_carried. split; [reflexivity|]. split; [|split].
  - intros n Hn. apply carried_price_numeric in Hn. rewrite Hn. cbn [truthy].
    now destruct (num_eq n zero || num_isNaN n).
  - intros Hn T. rewrite T. split; [reflexivity|].
    destruct (carried_price fields cryptoId) as [| | |m| | |] eqn:E; try reflexivity.
    apply carried_price_numeric in E. congruence.
  - destruct (truthy (carried_price fields cryptoId)); split; congruence.
Qed.

Lemma spot_price_requires_truthy_witness :
  fst (getCryptoPrice (quotes (JStr "12")) "bitcoin") = Ok (JStr "12") /\
  is_number (JStr "12") = false /\
  fst (getCryptoPrice (quotes (JNum (num_of_Z 6000))) "bitcoin") =
    Ok (JNum (num_of_Z 6000)).
Proof.
  split; [|split].
  - apply (proj1 (proj2 (proj2
      (spot_price_requires_truthy (quotes (JStr "12")) "bitcoin"
         (mkResponse 200 "OK" (Some (bitcoin_quote (JStr "12")))) [EvFetch]
         {[ "bitcoin" := JObj {[ "usd" := JStr "12" ]} ]} eq_refl eq_refl)))
      eq_refl eq_refl).
  - apply (proj1 (proj2 (proj2
      (spot_price_requires_truthy (quotes (JStr "12")) "bitcoin"
         (mkResponse 200 "OK" (Some (bitcoin_quote (JStr "12")))) [EvFetch]
         {[ "bitcoin" := JObj {[ "usd" := JStr "12" ]} ]} eq_refl eq_refl)))
      eq_refl eq_refl).
  - apply (proj1 (proj2
      (spot_price_requires_truthy (quotes (JNum (num_of_Z 6000))) "bitcoin"
         (mkResponse 200 "OK" (Some (bitcoin_quote (JNum (num_of_Z 6000))))) [EvFetch]
         {[ "bitcoin" := JObj {[ "usd" := JNum (num_of_Z 6000) ]} ]} eq_refl eq_refl))
      (num_of_Z 6000) eq_refl).
Defined.

(** C3 as stated fails: the body [{"bitcoin": {"usd": 0}}] carries a
    numeric price for the key, and the call rejects it. *)
Lemma zero_price_counterexample :
  numeric_price {[ "bitcoin" := JObj {[ "usd" := JNum zero ]} ]} "bitcoin" = Some zero /\
  getCryptoPrice (quotes (JNum zero)) "bitcoin" = (Err InvalidPriceData, [EvFetch]).
Proof. split; reflexivity. Qed.

(** ** Arithmetic on numbers *)

Lemma Qc_eqb_eq (x y : Qc) : Qc_eqb x y = true -> x = y.
Proof.
  unfold Qc_eqb. destruct (x ?= y)%Qc eqn:E; try discriminate.
  intros _. now apply Qceq_alt.
Qed.

Lemma number_beq_eq (x y : number) : number_beq x y = true -> x = y.
Proof.
  destruct x, y; simpl; try discriminate; try reflexivity.
  intros H. f_equal. now apply Qc_eqb_eq.
Qed.

(** Closes an equation between two closed numbers. *)
Ltac number_eq := apply number_beq_eq; vm_compute; reflexivity.

Lemma num_add_0_r (x : number) : num_add x zero = x.
Proof. destruct x; simpl; try reflexivity. f_equal. apply Qcplus_0_r. Qed.

Lemma num_add_0_l (x : number) : num_add zero x = x.
Proof. destruct x; simpl; try reflexivity. f_equal. apply Qcplus_0_l. Qed.

Lemma num_mul_0_finite (x : number) : is_finite x -> num_mul zero x = zero.
Proof.
  destruct x; simpl; try contradiction. intros _. unfold zero. f_equal.
  apply Qcmult_0_l.
Qed.

Lemma num_gt_zero_zero : num_gt zero zero = false.
Proof. reflexivity. Qed.

(** ** Valuation *)

(** [reduce] with [+] adds the terms from the first to the last. *)
Lemma fold_left_sum_from {A : Type} (f : A -> number) (l : list A) :
  forall a, fold_left (fun sum x => num_add sum (f x)) l a = sum_from f a l.
Proof. induction l as [|x l IH]; intros a; [reflexivity|]. apply IH. Qed.

Lemma sum_from_ext {A : Type} (f g : A -> number) (l : list A) :
  Forall (fun x => f x = g x) l -> forall a, sum_from f a l = sum_from g a l.
Proof.
  induction 1 as [|x l Hx _ IH]; intros a; [reflexivity|].
  cbn [sum_from]. rewrite Hx. apply IH.
Qed.

(** Away from the names that the record inherits, the price read for a
    position is the reported spot price, or 0 without one. *)
Lemma currentPrice_spot_price (prices : option (gmap string number))
    (item : PortfolioItem) :
  inherited_name (cryptoId item) = false ->
  currentPrice prices item = default zero (spot_price prices (cryptoId item)).
Proof.
  intros H. destruct prices as [p|]; [|reflexivity].
  unfold currentPrice, read_price, spot_price. cbn [mbind option_bind].
  destruct (p !! cryptoId item); cbn [from_option Datatypes.id]; [reflexivity|].
  now rewrite H.
Qed.

(** A position whose term is 0 can be left out of the total value. *)
Lemma totalValue_without (prices : option (gmap string number))
    (before after : list PortfolioItem) (item : PortfolioItem) :
  num_mul (currentPrice prices item) (amount item) = zero ->
  totalValue prices (before ++ item :: after) = totalValue prices (before ++ after).
Proof.
  intros Hz. unfold totalValue. rewrite !fold_left_app. cbn [fold_left].
  now rewrite Hz, num_add_0_r.
Qed.

(** C4, as amended. The invested total is the sum of the cost bases and,
    when no asset identifier is a name inherited from [Object.prototype],
    the total value is the sum of price-or-0 times quantity, both taken
    from the first position to the last; the profit is their difference;
    the percentage is guarded by [totalInvestment > 0] and is 0 when
    nothing was invested; a position with an absent price, a finite
    quantity and an asset identifier that is not an inherited name adds
    exactly 0, and the total value is the one without that position. *)
Theorem valuation_aggregation (prices : option (gmap string number))
    (portfolio : list PortfolioItem) :
  (Forall (fun item => inherited_name (cryptoId item) = false) portfolio ->
   totalValue prices portfolio =
     sum_in_order (fun item => num_mul (default zero (spot_price prices (cryptoId item)))
                                       (amount item)) portfolio) /\
  totalInvestment portfolio = sum_in_order initialInvestment portfolio /\
  totalProfit prices portfolio =
    num_sub (totalValue prices portfolio) (totalInvestment portfolio) /\
  (num_gt (totalInvestment portfolio) zero = true ->
   profitPercentage prices portfolio =
     num_mul (num_div (totalProfit prices portfolio) (totalInvestment portfolio))
             hundred) /\
  (totalInvestment portfolio = zero -> profitPercentage prices portfolio = zero) /\
  (forall before item after,
     portfolio = before ++ item :: after ->
     spot_price prices (cryptoId item) = None ->
     inherited_name (cryptoId item) = false ->
     is_finite (amount item) ->
     num_mul (currentPrice prices item) (amount item) = zero /\
     totalValue prices portfolio = totalValue prices (before ++ after)).
Proof.
  split; [|split; [|split; [|split; [|split]]]].
  - intros Hnames. unfold totalValue, sum_in_order.
    rewrite (fold_left_sum_from
               (fun item => num_mul (currentPrice prices item) (amount item))).
    apply sum_from_ext. eapply Forall_impl; [exact Hnames|].
    intros item H. cbn beta. now rewrite (currentPrice_spot_price _ _ H).
  - unfold totalInvestment, sum_in_order. apply fold_left_sum_from.
  - reflexivity.
  - intros H. unfold profitPercentage. now rewrite H.
  - intros H. unfold profitPercentage. now rewrite H, num_gt_zero_zero.
  - intros before item after -> Habsent Hname Hfin.
    assert (Hz : num_mul (currentPrice prices item) (amount item) = zero).
    { rewrite (currentPrice_spot_price _ _ Hname), Habsent.
      now apply num_mul_0_finite. }
    split; [exact Hz|]. now apply totalValue_without.
Qed.

Lemma valuation_aggregation_witness :
  totalValue only_A [holding "A" 2 15; holding "B" 3 5] =
    sum_in_order (fun item => num_mul (default zero (spot_price only_A (cryptoId item)))
                                      (amount item))
                 [holding "A" 2 15; holding "B" 3 5] /\
  profitPercentage only_A [holding "A" 3 15; holding "B" 3 5] =
    num_mul (num_div (totalProfit only_A [holding "A" 3 15; holding "B" 3 5])
                     (totalInvestment [holding "A" 3 15; holding "B" 3 5]))
            hundred /\
  profitPercentage only_A [holding "A" 1 0] = zero /\
  num_mul (currentPrice only_A (holding "B" 3 5)) (amount (holding "B" 3 5)) = zero /\
  totalValue only_A [holding "A" 2 15; holding "B" 3 5] =
    totalValue only_A ([holding "A" 2 15] ++ []).
Proof.
  split; [|split; [|split]].
  - apply (proj1 (valuation_aggregation only_A [holding "A" 2 15; holding "B" 3 5])).
    repeat constructor.
  - apply (proj1 (proj2 (proj2 (proj2
             (valuation_aggregation only_A [holding "A" 3 15; holding "B" 3 5]))))).
    vm_compute. reflexivity.
  - apply (proj1 (proj2 (proj2 (proj2 (proj2
             (valuation_aggregation only_A [holding "A" 1 0])))))).
    number_eq.
  - apply (proj2 (proj2 (proj2 (proj2 (proj2
             (valuation_aggregation only_A [holding "A" 2 15; holding "B" 3 5])))))
             [holding "A" 2 15] (holding "B" 3 5) []).
    + reflexivity.
    + vm_compute. reflexivity.
    + reflexivity.
    + exact I.
Defined.

(** C4 as stated fails.  The price record has no entry for the asset
    identifier [constructor], yet the position does not count for 0: the
    record inherits a member of that name, and the total value is [NaN]
    where the sum of the specification is 20.  And a position without a
    price whose quantity is [Infinity] contributes [0 * Infinity], which
    is [NaN]. *)
Lemma constructor_asset_counterexample :
  spot_price only_A "constructor" = None /\
  is_finite (amount (holding "constructor" 3 5)) /\
  num_mul (currentPrice only_A (holding "constructor" 3 5))
          (amount (holding "constructor" 3 5)) = NaN /\
  totalValue only_A [holding "A" 2 15; holding "constructor" 3 5] = NaN /\
  sum_in_order (fun item => num_mul (default zero (spot_price only_A (cryptoId item)))
                                    (amount item))
               [holding "A" 2 15; holding "constructor" 3 5] = num_of_Z 20 /\
  spot_price only_A (cryptoId (unbounded_holding "B")) = None /\
  num_mul (default zero (spot_price only_A (cryptoId (unbounded_holding "B"))))
          (amount (unbounded_holding "B")) = NaN /\
  totalValue only_A [holding "A" 2 15; unbounded_holding "B"] = NaN.
Proof.
  split; [reflexivity|]. split; [exact I|].
  split; [reflexivity|]. split; [reflexivity|]. split; [number_eq|].
  split; [reflexivity|]. split; reflexivity.
Qed.

(** The batch scenario of the specification: A resolves to 10, B fails. *)
Example valuation_with_failed_fetch :
  totalValue only_A [holding "A" 2 15; holding "B" 3 5] = num_of_Z 20 /\
  totalInvestment [holding "A" 2 15; holding "B" 3 5] = num_of_Z 20 /\
  profitPercentage only_A [holding "A" 2 15; holding "B" 3 5] = zero.
Proof. repeat split; number_eq. Qed.

(** Nothing invested and a holding worth 10: the percentage is 0. *)
Example nothing_invested :
  totalInvestment [holding "A" 1 0] = zero /\
  totalValue only_A [holding "A" 1 0] = num_of_Z 10 /\
  profitPercentage only_A [holding "A" 1 0] = zero.
Proof. repeat split; number_eq. Qed.

(** ** Row metrics *)

(** Without a guard, a cost basis of 0 never yields a percentage of 0: the
    division by zero gives an infinity or [NaN]. *)
Lemma row_percentage_zero_cost (prices : option (gmap string number))
    (item : PortfolioItem) :
  initialInvestment item = zero ->
  row_profitPercentage (rowMetrics prices item) = PInf \/
  row_profitPercentage (rowMetrics prices item) = NInf \/
  row_profitPercentage (rowMetrics prices item) = NaN.
Proof.
  intros H. unfold rowMetrics. cbn [row_profitPercentage]. rewrite H.
  destruct (num_mul (currentPrice prices item) (amount item)) as [a| | |].
  - unfold num_sub, zero. cbn [num_neg num_add num_div].
    change (Qc_eqb 0 0) with true. cbv iota.
    destruct (a + - 0 ?= 0)%Qc; cbn [inf_of_sign]; auto.
  - left. reflexivity.
  - right. left. reflexivity.
  - right. right. reflexivity.
Qed.

(** C5, on the code. A position bought for nothing, holding one unit of an
    asset quoted at 10: the row computes [(10 / 0) * 100], which is
    [Infinity], and [(0 / 0) * 100], which is [NaN], while no price is
    known; the aggregate over the same position is guarded and yields 0. *)
Theorem row_percentage_unguarded :
  initialInvestment (holding "A" 1 0) = zero /\
  row_profitPercentage (rowMetrics only_A (holding "A" 1 0)) = PInf /\
  row_profitPercentage (rowMetrics None (holding "A" 1 0)) = NaN /\
  profitPercentage only_A [holding "A" 1 0] = zero.
Proof. repeat split; number_eq. Qed.

(** ** Input validation *)

(** What an accepted submission guarantees about a numeric field: it is
    not NaN and not below zero. *)
Lemma transformNumber_accepts (other : string -> number)
    (invalid negative_msg val : string) (num : number) :
  transformNumber other invalid negative_msg val = inr num ->
  num = StringToNumber other val /\ num_isNaN num = false /\ num_lt num zero = false.
Proof.
  unfold transformNumber.
  destruct (num_isNaN (StringToNumber other val)) eqn:E1; [discriminate|].
  destruct (num_lt (StringToNumber other val) zero) eqn:E2; [discriminate|].
  now intros [= <-].
Qed.

(** C10, on the code. The submission with amount "0" and investment "100"
    passes the schema with quantity 0, and the row of the stored position
    divides the cost basis by it. *)
Theorem zero_quantity_accepted (other : string -> number) :
  exists input,
    addInvestmentSchema other (mkAddInvestmentForm "bitcoin" "BTC" "0" "100")
      = Valid input /\
    in_amount input = zero /\
    in_initialInvestment input = num_of_Z 100 /\
    row_purchasePrice (rowMetrics None (storedItem input "1" "2024-01-01")) = PInf.
Proof.
  eexists. split; [reflexivity|]. repeat split; number_eq.
Qed.

(** ** Risk score *)

(** The sum of the four deltas keeps the score between 55 and 90, so the
    clamp never acts. *)
Lemma risk_score_unclamped (exponent : Qc -> string) (marketData : MarketData number) :
  risk_score (calculateRiskScore exponent marketData) =
    (70 + list_sum_Z (map score (scoredFactors exponent marketData)))%Z /\
  (55 <= risk_score (calculateRiskScore exponent marketData) <= 90)%Z.
Proof.
  unfold calculateRiskScore, scoredFactors, list_sum_Z.
  cbn [risk_score fold_left fold_right map score].
  destruct (num_gt (num_abs _) _), (num_gt (price_change_percentage_7d _) _),
    (num_gt (market_cap _) _), (num_gt (total_volume _) _); lia.
Qed.

(** C6. For every snapshot (NaN and the infinities included) the risk
    score lies in the closed interval from 0 to 100. *)
Theorem risk_score_in_range (exponent : Qc -> string) (marketData : MarketData number) :
  (0 <= risk_score (calculateRiskScore exponent marketData) <= 100)%Z.
Proof.
  pose proof (risk_score_unclamped exponent marketData) as [_ H]. lia.
Qed.

(** C7. For the snapshot with 24h change 12, 7d change -3, market cap 2e9
    and volume 3e8 the four deltas are -10, -5, +10, +5 and the score is
    [clamp(70 - 10 - 5 + 10 + 5, 0, 100)] = 70. *)
Theorem risk_score_scenario (exponent : Qc -> string) (price : number) :
  map score (scoredFactors exponent (scenario num_of_Z price)) = [-10; -5; 10; 5]%Z /\
  risk_score (calculateRiskScore exponent (scenario num_of_Z price)) =
    Z.max 0 (Z.min 100 (70 - 10 - 5 + 10 + 5)) /\
  risk_score (calculateRiskScore exponent (scenario num_of_Z price)) = 70%Z.
Proof. repeat split; vm_compute; reflexivity. Qed.

(** ** Synthetic news *)

Lemma is_number_JNum (v : jsval) : is_number v = true -> v = JNum (as_number v).
Proof. now destruct v. Qed.

Lemma length_when {A : Type} (b : bool) (x : A) : (length (when b x) <= 1)%nat.
Proof. destruct b; simpl; lia. Qed.

(** C8, as amended. For the snapshot with 24h change 12, 7d change -3,
    market cap 2e9 and volume 3e8 (and any numeric current price) the
    generator yields exactly 4 items; the first headline reads
    "gains 12.00% in 24h" and the second "falls 3.00% this week". *)
Theorem news_scenario (other : string -> number)
    (array : list jsval -> result number) (exponent : Qc -> string)
    (asset updated : string) (links : list string) (price : number) :
  exists news,
    newsFromDetails other array exponent
      (mkCryptoDetails asset (scenario_json price) updated links) = Ok news /\
    length news = 4%nat /\
    map title news =
      [ asset +:+ " gains 12.00% in 24h";
        asset +:+ " falls 3.00% this week";
        asset +:+ " records $300.00M in daily trading";
        asset +:+ " market cap at $2.00B" ].
Proof. eexists. split; [reflexivity|]. split; reflexivity. Qed.

(** C8 as stated fails: the first headline for that snapshot says "gains",
    and "drops 12.00%" does not occur in it. *)
Lemma first_headline_counterexample :
  exists first rest,
    newsFromDetails other_is_NaN array_is_NaN no_exponent
      (bitcoin (scenario_json (num_of_Z 50000))) = Ok (first :: rest) /\
    length (first :: rest) = 4%nat /\
    title first = "Bitcoin gains 12.00% in 24h" /\
    contains "drops 12.00%" (title first) = false.
Proof. do 2 eexists. repeat split; reflexivity. Qed.

(** C9, as amended. When the current price is a number, the generator
    emits at most four items, in the order of the fields: the items of the
    24h and 7d moves exactly when the field is a number, the items of the
    volume and of the market cap exactly when the field is truthy, so that
    a number yields its item exactly when it is neither 0 nor NaN.  A
    truthy volume or market cap is coerced to a number for its headline,
    and the call fails, with the error of the coercion, exactly when such
    a coercion throws. *)
Theorem news_items_by_field (other : string -> number)
    (array : list jsval -> result number) (exponent : Qc -> string)
    (data : CryptoDetails) (price : number) :
  current_price_usd (market_data data) = JNum price ->
  let md := market_data data in
  newsFromDetails other array exponent data =
    (let* volume := coerced_when_truthy other array (total_volume md) in
     let* cap := coerced_when_truthy other array (market_cap md) in
     Ok (when (is_number (price_change_percentage_24h md))
              (news24h exponent data (as_number (price_change_percentage_24h md))
                       (toFixed2 exponent price))
         ++ when (is_number (price_change_percentage_7d md))
                 (news7d exponent data (as_number (price_change_percentage_7d md)))
         ++ when (truthy (total_volume md)) (newsVolume exponent data volume)
         ++ when (truthy (market_cap md)) (newsMarketCap exponent data cap))) /\
  (forall news, newsFromDetails other array exponent data = Ok news ->
                (length news <= 4)%nat) /\
  (forall volume cap,
     total_volume md = JNum volume -> market_cap md = JNum cap ->
     newsFromDetails other array exponent data =
       Ok (when (is_number (price_change_percentage_24h md))
                (news24h exponent data (as_number (price_change_percentage_24h md))
                         (toFixed2 exponent price))
           ++ when (is_number (price_change_percentage_7d md))
                   (news7d exponent data (as_number (price_change_percentage_7d md)))
           ++ when (negb (num_eq volume zero || num_isNaN volume))
                   (newsVolume exponent data volume)
           ++ when (negb (num_eq cap zero || num_isNaN cap))
                   (newsMarketCap exponent data cap))) /\
  (forall e, newsFromDetails other array exponent data = Err e <->
     (truthy (total_volume md) = true /\
      to_number other array (total_volume md) = Err e) \/
     ((exists volume, coerced_when_truthy other array (total_volume md) = Ok volume) /\
      truthy (market_cap md) = true /\
      to_number other array (market_cap md) = Err e)).
Proof.
  intros Hprice md.
  assert (E : newsFromDetails other array exponent data =
    (let* volume := coerced_when_truthy other array (total_volume md) in
     let* cap := coerced_when_truthy other array (market_cap md) in
     Ok (when (is_number (price_change_percentage_24h md))
              (news24h exponent data (as_number (price_change_percentage_24h md))
                       (toFixed2 exponent price))
         ++ when (is_number (price_change_percentage_7d md))
                 (news7d exponent data (as_number (price_change_percentage_7d md)))
         ++ when (truthy (total_volume md)) (newsVolume exponent data volume)
         ++ when (truthy (market_cap md)) (newsMarketCap exponent data cap)))).
  { unfold newsFromDetails, coerced_when_truthy. subst md. cbv zeta. rewrite Hprice.
    destruct (price_change_percentage_24h (market_data data)),
      (price_change_percentage_7d (market_data data)),
      (truthy (total_volume (market_data data))),
      (truthy (market_cap (market_data data)));
      try destruct (to_number other array (total_volume (market_data data)));
      try destruct (to_number other array (market_cap (market_data data)));
      reflexivity. }
  split; [exact E|]. split; [|split].
  - intros news. rewrite E.
    destruct (coerced_when_truthy other array (total_volume md)) as [volume|];
      cbn [bind]; [|discriminate].
    destruct (coerced_when_truthy other array (market_cap md)) as [cap|];
      cbn [bind]; [|discriminate].
    intros [= <-]. rewrite !length_app.
    pose proof (length_when (is_number (price_change_percentage_24h md))
      (news24h exponent data (as_number (price_change_percentage_24h md))
               (toFixed2 exponent price))).
    pose proof (length_when (is_number (price_change_percentage_7d md))
      (news7d exponent data (as_number (price_change_percentage_7d md)))).
    pose proof (length_when (truthy (total_volume md)) (newsVolume exponent data volume)).
    pose proof (length_when (truthy (market_cap md)) (newsMarketCap exponent data cap)).
    lia.
  - intros volume cap Hv Hc. rewrite E. unfold coerced_when_truthy.
    rewrite Hv, Hc. cbn [truthy to_number].
    destruct (negb (num_eq volume zero || num_isNaN volume)),
      (negb (num_eq cap zero || num_isNaN cap)); reflexivity.
  - intros e. rewrite E. unfold coerced_when_truthy.
    destruct (truthy (total_volume md)).
    + destruct (to_number other array (total_volume md)) as [volume|e1]; cbn [bind].
      * destruct (truthy (market_cap md)).
        -- destruct (to_number other array (market_cap md)) as [cap|e2]; cbn [bind].
           ++ split; [discriminate|]. intros [[_ H]|(_ & _ & H)]; discriminate.
           ++ split.
              ** intros [= ->]. right. split; [now exists volume|]. now split.
              ** intros [[_ H]|(_ & _ & H)]; [discriminate|congruence].
        -- cbn [bind]. split; [discriminate|].
           intros [[_ H]|(_ & H & _)]; discriminate.
      * split.
        -- intros [= ->]. left. now split.
        -- intros [[_ H]|([volume H] & _)]; [congruence|discriminate].
    + cbn [bind]. destruct (truthy (market_cap md)).
      * destruct (to_number other array (market_cap md)) as [cap|e2]; cbn [bind].
        -- split; [discriminate|]. intros [[H _]|(_ & _ & H)]; discriminate.
        -- split.
           ++ intros [= ->]. right. split; [now exists NaN|]. now split.
           ++ intros [[H _]|(_ & _ & H)]; [discriminate|congruence].
      * cbn [bind]. split; [discriminate|].
        intros [[H _]|(_ & H & _)]; discriminate.
Qed.

Lemma news_items_by_field_witness :
  newsFromDetails other_is_NaN array_is_NaN no_exponent
      (bitcoin (scenario_without_volume (num_of_Z 50000))) =
    Ok [ news24h no_exponent (bitcoin (scenario_without_volume (num_of_Z 50000)))
                 (num_of_Z 12) "50000.00";
         news7d no_exponent (bitcoin (scenario_without_volume (num_of_Z 50000)))
                (num_of_Z (-3));
         newsMarketCap no_exponent (bitcoin (scenario_without_volume (num_of_Z 50000)))
                       (num_of_Z 2000000000) ].
Proof.
  apply (proj1 (news_items_by_field other_is_NaN array_is_NaN no_exponent
                  (bitcoin (scenario_without_volume (num_of_Z 50000)))
                  (num_of_Z 50000) eq_refl)).
Defined.

(** C9 as stated fails: a trading volume of 0 is a well-formed number, and
    the generator emits no item for it. *)
Lemma zero_volume_counterexample :
  is_number (total_volume (scenario_without_volume (num_of_Z 50000))) = true /\
  exists news,
    newsFromDetails other_is_NaN array_is_NaN no_exponent
      (bitcoin (scenario_without_volume (num_of_Z 50000))) = Ok news /\
    length news = 3%nat /\
    map title news =
      [ "Bitcoin gains 12.00% in 24h";
        "Bitcoin falls 3.00% this week";
        "Bitcoin market cap at $2.00B" ].
Proof. split; [reflexivity|]. eexists. repeat split; reflexivity. Qed.

(** * Further properties of the code *)

(** ** The fetcher: budget, waits and reported errors *)

Lemma backoff_in_range (i : nat) : (1000 <= backoff i <= 30000)%Z.
Proof.
  unfold backoff. assert (0 < 2 ^ Z.of_nat i)%Z by (apply Z.pow_pos_nonneg; lia). lia.
Qed.

Lemma recorded_error_failed (o : fetch_outcome) (e : Error) :
  recorded_error o = Some e -> failed_attempt o = true /\ rate_limited o = false.
Proof.
  destruct o as [r|[msg|]]; simpl; [|now intros _..].
  destruct (status r =? 429)%Z; [discriminate|].
  destruct (ok r); [discriminate|]. now intros _.
Qed.

Section RetryLoopFacts.

Variable net : network.
Variable url : string.
Variable attempts : nat.

Lemma retry_loop_within_budget (remaining : nat) :
  forall (i : nat) (le : option Error),
    (attempts_made (snd (retry_loop net url attempts remaining i le)) <= remaining)%nat /\
    waits_in_range (snd (retry_loop net url attempts remaining i le)).
Proof.
  induction remaining as [|rest IH]; intros i le.
  - split; [apply Nat.le_refl|constructor].
  - assert (Hnext : forall le',
      (attempts_made (EvFetch :: EvDelay (backoff i)
         :: snd (retry_loop net url attempts rest (S i) le')) <= S rest)%nat /\
      waits_in_range (EvFetch :: EvDelay (backoff i)
         :: snd (retry_loop net url attempts rest (S i) le'))).
    { intros le'. destruct (IH (S i) le') as [H1 H2]. split.
      - unfold attempts_made in *. cbn [List.filter is_fetch length]. lia.
      - repeat constructor; [apply backoff_in_range..|exact H2]. }
    assert (Hone : (attempts_made [EvFetch] <= S rest)%nat /\ waits_in_range [EvFetch]).
    { split; [unfold attempts_made; simpl; lia|repeat constructor]. }
    cbn [retry_loop].
    destruct (net url i) as [r|[msg|]].
    + destruct (status r =? 429)%Z.
      * specialize (Hnext le). now destruct (retry_loop net url attempts rest (S i) le).
      * destruct (ok r); cbn [negb]; [exact Hone|].
        destruct (i =? attempts - 1)%nat; [exact Hone|].
        specialize (Hnext (Some (HttpError (status r) (statusText r)))).
        now destruct (retry_loop net url attempts rest (S i) _).
    + destruct (i =? attempts - 1)%nat; [exact Hone|].
      specialize (Hnext (Some (FetchError msg))).
      now destruct (retry_loop net url attempts rest (S i) _).
    + destruct (i =? attempts - 1)%nat; [exact Hone|].
      specialize (Hnext (Some NetworkRequestFailed)).
      now destruct (retry_loop net url attempts rest (S i) _).
Qed.

(** An attempt whose error is recorded and that is not the last one hands
    that error on. *)
Lemma retry_loop_recorded (rest i : nat) (le : option Error) (e : Error) :
  recorded_error (net url i) = Some e -> i <> (attempts - 1)%nat ->
  retry_loop net url attempts (S rest) i le =
    (fst (retry_loop net url attempts rest (S i) (Some e)),
     EvFetch :: EvDelay (backoff i) :: snd (retry_loop net url attempts rest (S i) (Some e))).
Proof.
  intros H Hi. apply Nat.eqb_neq in Hi. cbn [retry_loop].
  destruct (net url i) as [r|[msg|]]; simpl in H.
  - destruct (status r =? 429)%Z; [discriminate|].
    destruct (ok r); [discriminate|]. injection H as <-. cbn [negb]. rewrite Hi.
    now destruct (retry_loop net url attempts rest (S i) _).
  - injection H as <-. rewrite Hi. now destruct (retry_loop net url attempts rest (S i) _).
  - injection H as <-. rewrite Hi. now destruct (retry_loop net url attempts rest (S i) _).
Qed.

(** The last attempt, when its error is recorded, ends the run with it. *)
Lemma retry_loop_last (rest i : nat) (le : option Error) (e : Error) :
  recorded_error (net url i) = Some e -> i = (attempts - 1)%nat ->
  retry_loop net url attempts (S rest) i le = (Err e, [EvFetch]).
Proof.
  intros H Hi. apply Nat.eqb_eq in Hi. cbn [retry_loop].
  destruct (net url i) as [r|[msg|]]; simpl in H.
  - destruct (status r =? 429)%Z; [discriminate|].
    destruct (ok r); [discriminate|]. injection H as <-. cbn [negb]. now rewrite Hi.
  - injection H as <-. now rewrite Hi.
  - injection H as <-. now rewrite Hi.
Qed.

(** A stretch of [n] failed attempts, none of them the last of the budget. *)
Lemma retry_loop_skip_failures (n : nat) :
  forall (i rest : nat) (le : option Error),
    (forall k, (i <= k < i + n)%nat ->
       failed_attempt (net url k) = true /\ k <> (attempts - 1)%nat) ->
    exists le',
      (n = 0%nat -> le' = le) /\
      retry_loop net url attempts (n + rest) i le =
        (fst (retry_loop net url attempts rest (i + n) le'),
         waits_from i n ++ snd (retry_loop net url attempts rest (i + n) le')).
Proof.
  induction n as [|n IH]; intros i rest le H.
  - exists le. rewrite Nat.add_0_r. split; [reflexivity|].
    change (0 + rest)%nat with rest.
    destruct (retry_loop net url attempts rest i le). reflexivity.
  - change (S n + rest)%nat with (S (n + rest)).
    destruct (retry_loop_failed net url attempts (n + rest) i le) as [le1 ->];
      [apply H; lia..|].
    destruct (IH (S i) rest le1) as (le' & _ & ->); [intros k Hk; apply H; lia|].
    exists le'. split; [discriminate|].
    rewrite waits_from_S. cbn [fst snd app].
    now replace (S i + n)%nat with (i + S n)%nat by lia.
Qed.

Lemma retry_loop_ok_origin (remaining : nat) (r : Response) :
  forall (i : nat) (le : option Error),
    fst (retry_loop net url attempts remaining i le) = Ok r ->
    exists j, (i <= j < i + remaining)%nat /\ net url j = Responds r /\ ok r = true /\
              (forall k, (i <= k < j)%nat -> failed_attempt (net url k) = true) /\
              snd (retry_loop net url attempts remaining i le) =
                waits_from i (j - i) ++ [EvFetch].
Proof.
  induction remaining as [|rest IH]; intros i le H; [discriminate|].
  assert (Hnext : forall le',
    failed_attempt (net url i) = true ->
    fst (retry_loop net url attempts rest (S i) le') = Ok r ->
    exists j, (i <= j < i + S rest)%nat /\ net url j = Responds r /\ ok r = true /\
              (forall k, (i <= k < j)%nat -> failed_attempt (net url k) = true) /\
              EvFetch :: EvDelay (backoff i)
                :: snd (retry_loop net url attempts rest (S i) le') =
                waits_from i (j - i) ++ [EvFetch]).
  { intros le' Hf H'. destruct (IH _ _ H') as (j & Hj & Hr & Hok & Hbefore & Htr).
    exists j. split; [lia|]. split; [exact Hr|]. split; [exact Hok|]. split.
    - intros k Hk. destruct (Nat.eq_dec k i) as [->|]; [exact Hf|apply Hbefore; lia].
    - rewrite Htr. replace (j - i)%nat with (S (j - S i)) by lia.
      now rewrite waits_from_S. }
  cbn [retry_loop] in *.
  destruct (net url i) as [resp|t] eqn:Hnet; cbn [failed_attempt] in Hnext.
  - destruct (status resp =? 429)%Z eqn:H429.
    + assert (Hf : negb (ok resp) = true).
      { destruct (ok resp) eqn:Hok; [|reflexivity].
        now rewrite (ok_not_rate_limited _ Hok) in H429. }
      pose proof (Hnext le Hf) as Hn.
      destruct (retry_loop net url attempts rest (S i) le). exact (Hn H).
    + destruct (ok resp) eqn:Hok; cbn [negb] in *.
      * injection H as <-. exists i. rewrite Nat.sub_diag.
        repeat split; try assumption; lia.
      * destruct (i =? attempts - 1)%nat; [discriminate|].
        pose proof (Hnext (Some (HttpError (status resp) (statusText resp))) eq_refl) as Hn.
        destruct (retry_loop net url attempts rest (S i) _). exact (Hn H).
  - destruct t as [msg|]; (destruct (i =? attempts - 1)%nat; [discriminate|]).
    + pose proof (Hnext (Some (FetchError msg)) eq_refl) as Hn.
      destruct (retry_loop net url attempts rest (S i) _). exact (Hn H).
    + pose proof (Hnext (Some NetworkRequestFailed) eq_refl) as Hn.
      destruct (retry_loop net url attempts rest (S i) _). exact (Hn H).
Qed.

Lemma retry_loop_generic_origin (remaining : nat) :
  forall (i : nat) (le : option Error),
    le <> Some MaxRetries ->
    fst (retry_loop net url attempts remaining i le) = Err MaxRetries ->
    le = None /\
    forall j, (i <= j < i + remaining)%nat -> rate_limited (net url j) = true.
Proof.
  induction remaining as [|rest IH]; intros i le Hle H.
  - cbn in H. destruct le as [e|]; cbn in H; [congruence|]. split; [reflexivity|lia].
  - assert (Hnext : forall le', le' <> Some MaxRetries ->
      fst (retry_loop net url attempts rest (S i) le') = Err MaxRetries -> le' = None).
    { intros le' Hle' H'. now destruct (IH _ _ Hle' H'). }
    cbn [retry_loop] in H.
    destruct (net url i) as [resp|t] eqn:Hnet.
    + destruct (status resp =? 429)%Z eqn:H429.
      * destruct (retry_loop net url attempts rest (S i) le) eqn:Hrun. cbn [fst] in H.
        destruct (IH (S i) le Hle) as [-> Hall]; [now rewrite Hrun|].
        split; [reflexivity|]. intros j Hj.
        destruct (Nat.eq_dec j i) as [->|]; [now rewrite Hnet|apply Hall; lia].
      * destruct (ok resp); cbn [negb] in H; [discriminate|].
        destruct (i =? attempts - 1)%nat; [discriminate|].
        destruct (retry_loop net url attempts rest (S i) _) eqn:Hrun. cbn [fst] in H.
        exfalso. enough (Some (HttpError (status resp) (statusText resp)) = None)
          by discriminate.
        apply Hnext; [discriminate|now rewrite Hrun].
    + exfalso. destruct t as [msg|];
        (destruct (i =? attempts - 1)%nat; [discriminate|]);
        destruct (retry_loop net url attempts rest (S i) _) eqn:Hrun; cbn [fst] in H.
      * enough (Some (FetchError msg) = None) by discriminate.
        apply Hnext; [discriminate|now rewrite Hrun].
      * enough (Some NetworkRequestFailed = None) by discriminate.
        apply Hnext; [discriminate|now rewrite Hrun].
Qed.

End RetryLoopFacts.

(** X1. Whatever the network answers, a run makes at most [attempts] calls
    to [fetch], and every wait it takes lasts between 1 and 30 seconds. *)
Theorem fetch_within_budget (net : network) (url : string) (attempts : nat) :
  (attempts_made (snd (fetchWithRetry net url attempts)) <= attempts)%nat /\
  waits_in_range (snd (fetchWithRetry net url attempts)).
Proof. apply retry_loop_within_budget. Qed.

(** X2. A response that the fetcher returns is one that the network gave
    to this run with a status in 200-299; every attempt before it failed,
    and the trace is those attempts, each with its wait, and the
    successful one. *)
Theorem fetch_returns_ok_response (net : network) (url : string) (attempts : nat)
    (r : Response) :
  fst (fetchWithRetry net url attempts) = Ok r ->
  exists j, (j < attempts)%nat /\ net url j = Responds r /\ ok r = true /\
            (forall k, (k < j)%nat -> failed_attempt (net url k) = true) /\
            snd (fetchWithRetry net url attempts) = waits_from 0 j ++ [EvFetch].
Proof.
  intros H. unfold fetchWithRetry in *.
  apply retry_loop_ok_origin in H as (j & Hj & Hr & Hok & Hb & Htr).
  exists j. split; [lia|]. split; [exact Hr|]. split; [exact Hok|]. split.
  - intros k Hk. apply Hb. lia.
  - now rewrite Htr, Nat.sub_0_r.
Qed.

Lemma fetch_returns_ok_response_witness :
  exists j, (j < 3)%nat /\ once_500 "u" j = Responds empty_success /\
            ok empty_success = true /\
            (forall k, (k < j)%nat -> failed_attempt (once_500 "u" k) = true) /\
            snd (fetchWithRetry once_500 "u" 3) = waits_from 0 j ++ [EvFetch].
Proof. apply (fetch_returns_ok_response once_500 "u" 3 empty_success). reflexivity. Defined.

(** X3. When no attempt succeeds and the last one of the budget fails
    other than by a 429, the run ends with the error of that last attempt,
    and no wait follows it. *)
Theorem fetch_exhausted_reports_last_error (net : network) (url : string)
    (attempts : nat) (e : Error) :
  (1 <= attempts)%nat ->
  (forall j, (j < attempts - 1)%nat -> failed_attempt (net url j) = true) ->
  recorded_error (net url (attempts - 1)%nat) = Some e ->
  fetchWithRetry net url attempts =
    (Err e, waits_from 0 (attempts - 1) ++ [EvFetch]).
Proof.
  intros Ha Hfail Hlast. unfold fetchWithRetry.
  replace attempts with ((attempts - 1) + 1)%nat at 2 by lia.
  destruct (retry_loop_skip_failures net url attempts (attempts - 1) 0 1 None)
    as (le' & _ & ->).
  { intros k Hk. split; [apply Hfail|]; lia. }
  cbn [Nat.add]. now rewrite (retry_loop_last net url attempts 0 _ le' e Hlast).
Qed.

Lemma fetch_exhausted_reports_last_error_witness :
  fetchWithRetry always_500 "u" 3 =
    (Err (HttpError 500 "Internal Server Error"), waits_from 0 (3 - 1) ++ [EvFetch]).
Proof.
  apply (fetch_exhausted_reports_last_error always_500 "u" 3).
  - lia.
  - intros j _. reflexivity.
  - reflexivity.
Defined.

(** X4. The generic "Maximum retry attempts reached" error is raised only
    by a run in which every attempt was answered by a 429 (or whose budget
    is zero). *)
Theorem generic_error_means_rate_limited (net : network) (url : string)
    (attempts : nat) :
  fst (fetchWithRetry net url attempts) = Err MaxRetries ->
  forall j, (j < attempts)%nat -> rate_limited (net url j) = true.
Proof.
  intros H j Hj. unfold fetchWithRetry in H.
  apply retry_loop_generic_origin in H as [_ H]; [|discriminate].
  apply H. lia.
Qed.

Lemma generic_error_means_rate_limited_witness :
  rate_limited (always_429 "u" 2) = true.
Proof.
  apply (generic_error_means_rate_limited always_429 "u" 3 eq_refl 2%nat). lia.
Defined.

(** X5. A failure that is followed only by 429 responses until the budget
    is used up is the error of the run: the loop leaves through its final
    [throw] with the error recorded last, after a wait for every attempt. *)
Theorem rate_limit_keeps_earlier_error (net : network) (url : string)
    (attempts j : nat) (e : Error) :
  (j < attempts - 1)%nat ->
  (forall k, (k < j)%nat -> failed_attempt (net url k) = true) ->
  recorded_error (net url j) = Some e ->
  (forall k, (j < k < attempts)%nat -> rate_limited (net url k) = true) ->
  fetchWithRetry net url attempts = (Err e, waits_from 0 attempts).
Proof.
  intros Hj Hfail Hrec Hlim. unfold fetchWithRetry.
  replace attempts with (j + S (attempts - S j))%nat at 2 by lia.
  destruct (retry_loop_skip_failures net url attempts j 0 (S (attempts - S j)) None)
    as (le' & _ & ->).
  { intros k Hk. split; [apply Hfail|]; lia. }
  cbn [Nat.add].
  rewrite (retry_loop_recorded net url attempts _ j le' e Hrec) by lia.
  rewrite (retry_loop_all_rate_limited net url attempts)
    by (intros k Hk; apply Hlim; lia).
  cbn [fst snd from_option Datatypes.id]. f_equal.
  replace attempts with (j + S (attempts - S j))%nat at 2 by lia.
  unfold waits_from. now rewrite seq_app, flat_map_app.
Qed.

Lemma rate_limit_keeps_earlier_error_witness :
  fetchWithRetry unavailable_then_429 "u" 3 =
    (Err (HttpError 503 "Service Unavailable"), waits_from 0 3).
Proof.
  apply (rate_limit_keeps_earlier_error unavailable_then_429 "u" 3 0).
  - lia.
  - intros k Hk. lia.
  - reflexivity.
  - intros [|k] Hk; [lia|reflexivity].
Defined.

(** X6. The wait doubles from one second and is capped from the sixth
    attempt on: 1000, 2000, 4000, 8000, 16000 and then 30000 ms for ever;
    it never decreases. *)
Theorem backoff_schedule (i : nat) :
  ((i <= 4)%nat -> backoff i = (1000 * 2 ^ Z.of_nat i)%Z) /\
  ((5 <= i)%nat -> backoff i = 30000%Z) /\
  (backoff i <= backoff (S i))%Z.
Proof.
  assert (Hpow : forall n m : nat, (n <= m)%nat -> (2 ^ Z.of_nat n <= 2 ^ Z.of_nat m)%Z).
  { intros n m Hnm. apply Z.pow_le_mono_r; lia. }
  unfold backoff. split; [|split].
  - intros Hi. pose proof (Hpow i 4%nat Hi). change (2 ^ Z.of_nat 4)%Z with 16%Z in *. lia.
  - intros Hi. pose proof (Hpow 5%nat i Hi). change (2 ^ Z.of_nat 5)%Z with 32%Z in *. lia.
  - pose proof (Hpow i (S i) ltac:(lia)). lia.
Qed.

Lemma backoff_schedule_witness :
  backoff 3 = (1000 * 2 ^ Z.of_nat 3)%Z /\ backoff 7 = 30000%Z.
Proof.
  split.
  - apply (proj1 (backoff_schedule 3)). lia.
  - apply (proj1 (proj2 (backoff_schedule 7))). lia.
Defined.

(** ** Spot price: what is returned and how it fails *)

Lemma priceFromBody_truthy (data : jsval) (cryptoId : string) (v : jsval) :
  priceFromBody data cryptoId = Ok v -> truthy v = true.
Proof.
  unfold priceFromBody. destruct (get_prop data cryptoId) as [entry|]; [|discriminate].
  cbn [bind].
  destruct (get_prop_opt entry "usd") as [usd|] eqn:E; [|discriminate]. cbn [bind].
  destruct (truthy usd) eqn:T; cbn [negb]; [|discriminate].
  destruct entry; cbn [get_prop_opt get_prop] in *; try discriminate;
    injection E as <-; try discriminate; now intros [= <-].
Qed.

(** X7. A price that [getCryptoPrice] returns is truthy: never 0, NaN,
    null, false or the empty string, whatever the body was. *)
Theorem spot_price_is_truthy (net : network) (cryptoId : string) (v : jsval) :
  fst (getCryptoPrice net cryptoId) = Ok v -> truthy v = true.
Proof.
  unfold getCryptoPrice.
  destruct (fetchWithRetry net (price_url cryptoId) 3) as [[response|e] tr];
    cbn [fst bind]; [|discriminate].
  destruct (json response) as [data|]; cbn [bind]; [|discriminate].
  apply priceFromBody_truthy.
Qed.

Lemma spot_price_is_truthy_witness : truthy (JNum (num_of_Z 6000)) = true.
Proof.
  apply (spot_price_is_truthy (quotes (JNum (num_of_Z 6000))) "bitcoin"). reflexivity.
Defined.

(** X8. [getCryptoPrice] leaves the retry policy to the fetcher: it calls
    [fetch] at most three times, and an error of the fetcher is its own
    error, unchanged. *)
Theorem spot_price_fetch_policy (net : network) (cryptoId : string) :
  (attempts_made (snd (getCryptoPrice net cryptoId)) <= 3)%nat /\
  snd (getCryptoPrice net cryptoId) = snd (fetchWithRetry net (price_url cryptoId) 3) /\
  forall e, fst (fetchWithRetry net (price_url cryptoId) 3) = Err e ->
            fst (getCryptoPrice net cryptoId) = Err e.
Proof.
  pose proof (retry_loop_within_budget net (price_url cryptoId) 3 3 0 None) as [Hb _].
  unfold getCryptoPrice, fetchWithRetry in *.
  destruct (retry_loop net (price_url cryptoId) 3 3 0 None) as [fetched tr].
  cbn [fst snd] in *. split; [exact Hb|]. split; [reflexivity|]. now intros e ->.
Qed.

Lemma spot_price_fetch_policy_witness :
  fst (getCryptoPrice always_500 "bitcoin") = Err (HttpError 500 "Internal Server Error").
Proof.
  apply (proj2 (proj2 (spot_price_fetch_policy always_500 "bitcoin"))). reflexivity.
Defined.

(** X9. Bodies that do not have the expected shape: a body that is not
    JSON fails with the parser's error, the body [null] with a type error
    (the asset key is read from it), and an object without the asset key
    with "Invalid price data received". *)
Theorem spot_price_malformed_bodies (net : network) (cryptoId : string)
    (response : Response) (tr : list event) :
  fetchWithRetry net (price_url cryptoId) 3 = (Ok response, tr) ->
  (body response = None -> fst (getCryptoPrice net cryptoId) = Err SyntaxError) /\
  (body response = Some JNull -> fst (getCryptoPrice net cryptoId) = Err TypeError) /\
  (forall fields, body response = Some (JObj fields) -> fields !! cryptoId = None ->
     fst (getCryptoPrice net cryptoId) = Err InvalidPriceData).
Proof.
  intros H. unfold getCryptoPrice. rewrite H. cbn [fst bind]. unfold json.
  split; [|split].
  - now intros ->.
  - now intros ->.
  - intros fields -> Hk. cbn [bind]. unfold priceFromBody. cbn [get_prop bind].
    now rewrite Hk.
Qed.

Lemma spot_price_malformed_bodies_witness :
  fst (getCryptoPrice (answers None) "bitcoin") = Err SyntaxError /\
  fst (getCryptoPrice (answers (Some JNull)) "bitcoin") = Err TypeError /\
  fst (getCryptoPrice (answers (Some (JObj ∅))) "bitcoin") = Err InvalidPriceData.
Proof.
  split; [|split].
  - apply (proj1 (spot_price_malformed_bodies (answers None) "bitcoin"
                    (mkResponse 200 "OK" None) [EvFetch] eq_refl)). reflexivity.
  - apply (proj1 (proj2 (spot_price_malformed_bodies (answers (Some JNull)) "bitcoin"
                    (mkResponse 200 "OK" (Some JNull)) [EvFetch] eq_refl))). reflexivity.
  - apply (proj2 (proj2 (spot_price_malformed_bodies (answers (Some (JObj ∅))) "bitcoin"
                    (mkResponse 200 "OK" (Some (JObj ∅))) [EvFetch] eq_refl)) ∅);
      reflexivity.
Defined.

(** ** Synthetic news: shape of a digest *)

Section Digest.

Variable other : string -> number.
Variable array : list jsval -> result number.
Variable exponent : Qc -> string.

(** Every digest that is returned is made of the four optional items, in
    order; the price was formatted if the first item is there, and the
    volume and the market cap were coerced if theirs are. *)
Lemma newsFromDetails_shape (data : CryptoDetails) (news : list NewsItem) :
  newsFromDetails other array exponent data = Ok news ->
  let md := market_data data in
  exists price volume cap,
    (is_number (price_change_percentage_24h md) = true ->
       call_toFixed2 exponent (current_price_usd md) = Ok price) /\
    (truthy (total_volume md) = true -> to_number other array (total_volume md) = Ok volume) /\
    (truthy (market_cap md) = true -> to_number other array (market_cap md) = Ok cap) /\
    news =
      when (is_number (price_change_percentage_24h md))
           (news24h exponent data (as_number (price_change_percentage_24h md)) price)
      ++ when (is_number (price_change_percentage_7d md))
              (news7d exponent data (as_number (price_change_percentage_7d md)))
      ++ when (truthy (total_volume md)) (newsVolume exponent data volume)
      ++ when (truthy (market_cap md)) (newsMarketCap exponent data cap).
Proof.
  unfold newsFromDetails. cbv zeta.
  set (md := market_data data).
  destruct (call_toFixed2 exponent (current_price_usd md)) as [price|e1] eqn:Hp;
    destruct (to_number other array (total_volume md)) as [volume|e2] eqn:Hv;
    destruct (to_number other array (market_cap md)) as [cap|e3] eqn:Hc;
    destruct (price_change_percentage_24h md) as [| | |p24| | |];
    destruct (price_change_percentage_7d md) as [| | |p7| | |];
    destruct (truthy (total_volume md)), (truthy (market_cap md));
    cbn [bind is_number js_typeof String.eqb Ascii.eqb Bool.eqb as_number when app];
    intros H; try discriminate; injection H as <-;
    first [ exists price | exists "" ]; first [ exists volume | exists NaN ];
    first [ exists cap | exists NaN ];
    (split; [first [reflexivity | discriminate]|]);
    (split; [first [reflexivity | discriminate]|]);
    (split; [first [reflexivity | discriminate]|]); reflexivity.
Qed.

End Digest.

Lemma stamped_when (data : CryptoDetails) (b : bool) (item : NewsItem) :
  stamped data item -> Forall (stamped data) (when b item).
Proof.
  intros H. destruct b; cbn [when]; [apply Forall_cons_2; [exact H|]|];
    apply Forall_nil_2.
Qed.

(** X10. Every item of a digest links to the first homepage of the asset
    (to nothing when the list is empty), carries the snapshot's
    [last_updated] as its date and "Market Data" as its source. *)
Theorem news_items_stamped (other : string -> number)
    (array : list jsval -> result number) (exponent : Qc -> string)
    (data : CryptoDetails) (news : list NewsItem) :
  newsFromDetails other array exponent data = Ok news ->
  Forall (stamped data) news /\
  (homepage data = [] -> Forall (fun item => url item = None) news).
Proof.
  intros H. assert (HF : Forall (stamped data) news).
  { apply newsFromDetails_shape in H as (price & volume & cap & _ & _ & _ & ->).
    repeat apply Forall_app_2; apply stamped_when; now repeat split. }
  split; [exact HF|]. intros Hh. eapply Forall_impl; [exact HF|].
  intros item (Hu & _). now rewrite Hu, Hh.
Qed.

Lemma news_items_stamped_witness :
  Forall (stamped (bitcoin (scenario_json (num_of_Z 50000))))
    [ news24h no_exponent (bitcoin (scenario_json (num_of_Z 50000)))
              (num_of_Z 12) "50000.00";
      news7d no_exponent (bitcoin (scenario_json (num_of_Z 50000))) (num_of_Z (-3));
      newsVolume no_exponent (bitcoin (scenario_json (num_of_Z 50000)))
                 (num_of_Z 300000000);
      newsMarketCap no_exponent (bitcoin (scenario_json (num_of_Z 50000)))
                    (num_of_Z 2000000000) ].
Proof.
  apply (proj1 (news_items_stamped other_is_NaN array_is_NaN no_exponent
                  (bitcoin (scenario_json (num_of_Z 50000))) _ eq_refl)).
Defined.

(** X11. The current price is read only for the item of the 24h move: if
    the 24h change is a number and the current price is not, the whole
    call fails with a type error; if the 24h change is not a number, the
    current price does not matter. *)
Theorem news_needs_price_for_24h (other : string -> number)
    (array : list jsval -> result number) (exponent : Qc -> string)
    (data : CryptoDetails) :
  (is_number (price_change_percentage_24h (market_data data)) = true ->
   is_number (current_price_usd (market_data data)) = false ->
   newsFromDetails other array exponent data = Err TypeError) /\
  (is_number (price_change_percentage_24h (market_data data)) = false ->
   forall price,
     newsFromDetails other array exponent (with_price data price) =
     newsFromDetails other array exponent data).
Proof.
  split.
  - intros H24 Hp. unfold newsFromDetails. cbv zeta.
    destruct (price_change_percentage_24h (market_data data)); try discriminate.
    destruct (current_price_usd (market_data data)); try discriminate; reflexivity.
  - intros H24 price. unfold newsFromDetails. cbv zeta.
    cbn [with_price market_data price_change_percentage_24h].
    destruct (price_change_percentage_24h (market_data data)); try discriminate;
      reflexivity.
Qed.

Lemma news_needs_price_for_24h_witness :
  newsFromDetails other_is_NaN array_is_NaN no_exponent (bitcoin priceless_snapshot) =
    Err TypeError /\
  newsFromDetails other_is_NaN array_is_NaN no_exponent
      (with_price (bitcoin blank_snapshot) (JNum (num_of_Z 1))) =
    newsFromDetails other_is_NaN array_is_NaN no_exponent (bitcoin blank_snapshot).
Proof.
  split.
  - apply (proj1 (news_needs_price_for_24h other_is_NaN array_is_NaN no_exponent
                    (bitcoin priceless_snapshot))); reflexivity.
  - apply (proj2 (news_needs_price_for_24h other_is_NaN array_is_NaN no_exponent
                    (bitcoin blank_snapshot))). reflexivity.
Defined.

(** X12. The digest is empty, the state in which the page shows "No News
    Available", exactly when neither change is a number and both the
    volume and the market cap are falsy. *)
Theorem news_empty_iff (other : string -> number)
    (array : list jsval -> result number) (exponent : Qc -> string)
    (data : CryptoDetails) :
  newsFromDetails other array exponent data = Ok [] <->
  is_number (price_change_percentage_24h (market_data data)) = false /\
  is_number (price_change_percentage_7d (market_data data)) = false /\
  truthy (total_volume (market_data data)) = false /\
  truthy (market_cap (market_data data)) = false.
Proof.
  split.
  - intros H. apply newsFromDetails_shape in H as (price & volume & cap & _ & _ & _ & H).
    cbv zeta in H.
    destruct (is_number (price_change_percentage_24h (market_data data))),
      (is_number (price_change_percentage_7d (market_data data))),
      (truthy (total_volume (market_data data))),
      (truthy (market_cap (market_data data))); try discriminate H.
    now repeat split.
  - intros (H24 & H7 & Hv & Hc). unfold newsFromDetails. cbv zeta. rewrite Hv, Hc.
    destruct (price_change_percentage_24h (market_data data)); try discriminate;
      destruct (price_change_percentage_7d (market_data data)); try discriminate;
      reflexivity.
Qed.

Lemma news_empty_iff_witness :
  newsFromDetails other_is_NaN array_is_NaN no_exponent (bitcoin blank_snapshot) = Ok [].
Proof.
  apply (proj2 (news_empty_iff other_is_NaN array_is_NaN no_exponent
                  (bitcoin blank_snapshot))).
  repeat split.
Defined.

(** X13. A volume that arrives as an object (say, keyed by currency)
    passes the truthiness test and is coerced to NaN: the digest then
    contains the headline "<name> records $NaNM in daily trading". *)
Theorem news_object_volume_is_NaN (other : string -> number)
    (array : list jsval -> result number) (exponent : Qc -> string)
    (data : CryptoDetails) (fields : gmap string jsval) (news : list NewsItem) :
  total_volume (market_data data) = JObj fields ->
  fields !! "toString" = None ->
  newsFromDetails other array exponent data = Ok news ->
  exists item, In item news /\
    title item = name data +:+ " records $NaNM in daily trading".
Proof.
  intros Hv Hts H.
  apply newsFromDetails_shape in H as (price & volume & cap & _ & Hvol & _ & ->).
  cbv zeta in Hvol. rewrite Hv in *. cbn [truthy to_number] in Hvol.
  rewrite Hts in Hvol. specialize (Hvol eq_refl). injection Hvol as <-.
  exists (newsVolume exponent data NaN). split; [|reflexivity].
  cbn [truthy when]. apply in_or_app. right. apply in_or_app. right.
  apply in_or_app. left. now left.
Qed.

Lemma news_object_volume_is_NaN_witness :
  exists item,
    In item [ news24h no_exponent (bitcoin per_currency_snapshot) (num_of_Z 12) "50000.00";
              news7d no_exponent (bitcoin per_currency_snapshot) (num_of_Z (-3));
              newsVolume no_exponent (bitcoin per_currency_snapshot) NaN;
              newsMarketCap no_exponent (bitcoin per_currency_snapshot) NaN ] /\
    title item = "Bitcoin" +:+ " records $NaNM in daily trading".
Proof.
  apply (news_object_volume_is_NaN other_is_NaN array_is_NaN no_exponent
           (bitcoin per_currency_snapshot) {[ "usd" := JNum (num_of_Z 300000000) ]}).
  - reflexivity.
  - reflexivity.
  - reflexivity.
Defined.

(** ** Risk score: the clamp never acts *)

(** X14. The score is 70 plus the four deltas and always lies between 55
    and 90, so the clamp to 0-100 never changes it; both ends are reached. *)
Theorem risk_score_between_55_and_90 (exponent : Qc -> string) :
  (forall marketData,
     risk_score (calculateRiskScore exponent marketData) =
       (70 + list_sum_Z (map score (scoredFactors exponent marketData)))%Z /\
     (55 <= risk_score (calculateRiskScore exponent marketData) <= 90)%Z) /\
  risk_score (calculateRiskScore exponent volatile_small_cap) = 55%Z /\
  risk_score (calculateRiskScore exponent calm_large_cap) = 90%Z.
Proof.
  split; [intros marketData; apply risk_score_unclamped|].
  split; vm_compute; reflexivity.
Qed.

(** ** Rows *)

(** Two bitcoins bought for 10000 and quoted at 6000: the row shows 5000,
    12000, 2000 and 20 percent. *)
Example row_metrics_scenario :
  row_purchasePrice (rowMetrics (Some bitcoin_at_6000) two_bitcoins) = num_of_Z 5000 /\
  row_currentValue (rowMetrics (Some bitcoin_at_6000) two_bitcoins) = num_of_Z 12000 /\
  row_profit (rowMetrics (Some bitcoin_at_6000) two_bitcoins) = num_of_Z 2000 /\
  row_profitPercentage (rowMetrics (Some bitcoin_at_6000) two_bitcoins) = num_of_Z 20.
Proof. repeat split; number_eq. Qed.

(** ** Input validation: what passes and how the rest fails *)

Lemma min1_nil (msg val : string) : min1 msg val = [] <-> val <> "".
Proof. unfold min1. destruct val; simpl; split; congruence. Qed.

Lemma transformNumber_spec (other : string -> number)
    (invalid negative_msg val : string) :
  transformNumber other invalid negative_msg val =
    if num_isNaN (StringToNumber other val) then inl invalid
    else if num_lt (StringToNumber other val) zero then inl negative_msg
    else inr (StringToNumber other val).
Proof. reflexivity. Qed.

Lemma transformNumber_acceptable (other : string -> number)
    (invalid negative_msg val : string) :
  acceptable (StringToNumber other val) ->
  transformNumber other invalid negative_msg val = inr (StringToNumber other val).
Proof. intros [H1 H2]. now rewrite transformNumber_spec, H1, H2. Qed.

(** The accepting direction, shared by the statements below. *)
Lemma add_investment_accepted (other : string -> number)
    (form : AddInvestmentForm) :
  form_cryptoId form <> "" -> form_symbol form <> "" ->
  acceptable (StringToNumber other (form_amount form)) ->
  acceptable (StringToNumber other (form_initialInvestment form)) ->
  addInvestmentSchema other form =
    Valid {| in_cryptoId := form_cryptoId form;
             in_symbol := form_symbol form;
             in_amount := StringToNumber other (form_amount form);
             in_initialInvestment := StringToNumber other (form_initialInvestment form) |}.
Proof.
  intros Hc Hs Ha Hi. unfold addInvestmentSchema.
  rewrite !transformNumber_acceptable by assumption.
  apply min1_nil with (msg := "Cryptocurrency is required") in Hc.
  apply min1_nil with (msg := "Symbol is required") in Hs.
  now rewrite Hc, Hs.
Qed.

(** X17. A submission passes [addInvestmentSchema] exactly when the asset
    and the symbol are not empty and both numeric strings convert to a
    number that is neither NaN nor below zero; the parsed value carries
    the two identifiers unchanged and the two converted numbers. *)
Theorem add_investment_accepts_iff (other : string -> number)
    (form : AddInvestmentForm) (input : AddInvestmentInput) :
  addInvestmentSchema other form = Valid input <->
  form_cryptoId form <> "" /\ form_symbol form <> "" /\
  acceptable (StringToNumber other (form_amount form)) /\
  acceptable (StringToNumber other (form_initialInvestment form)) /\
  input = {| in_cryptoId := form_cryptoId form;
             in_symbol := form_symbol form;
             in_amount := StringToNumber other (form_amount form);
             in_initialInvestment := StringToNumber other (form_initialInvestment form) |}.
Proof.
  unfold addInvestmentSchema, acceptable. rewrite !transformNumber_spec.
  destruct (num_isNaN (StringToNumber other (form_amount form)));
    [split; [discriminate|now intros (_ & _ & [? _] & _)]|].
  destruct (num_lt (StringToNumber other (form_amount form)) zero);
    [split; [discriminate|now intros (_ & _ & [_ ?] & _)]|].
  destruct (num_isNaN (StringToNumber other (form_initialInvestment form)));
    [split; [discriminate|now intros (_ & _ & _ & [? _] & _)]|].
  destruct (num_lt (StringToNumber other (form_initialInvestment form)) zero);
    [split; [discriminate|now intros (_ & _ & _ & [_ ?] & _)]|].
  unfold min1.
  destruct (form_cryptoId form) as [|c1 s1], (form_symbol form) as [|c2 s2];
    cbn [String.length Nat.ltb Nat.leb app]; split;
    try discriminate; try (now intros (? & ? & _)).
  - intros [= <-]. repeat split; discriminate.
  - now intros (_ & _ & _ & _ & ->).
Qed.

Lemma add_investment_accepts_iff_witness :
  addInvestmentSchema other_is_NaN (sample_form "2.5" "100") =
    Valid {| in_cryptoId := "bitcoin"; in_symbol := "BTC";
             in_amount := StringToNumber other_is_NaN "2.5";
             in_initialInvestment := StringToNumber other_is_NaN "100" |}.
Proof.
  apply (proj2 (add_investment_accepts_iff other_is_NaN (sample_form "2.5" "100") _)).
  repeat split; discriminate.
Defined.

(** X18. How a submission fails.  The numeric fields are transformed in
    the order amount, initial investment, and the first error thrown is
    the outcome, whatever the other fields hold; the issues of the empty
    identifiers are reported only when both numbers pass. *)
Theorem add_investment_failures (other : string -> number) (form : AddInvestmentForm) :
  let amount := StringToNumber other (form_amount form) in
  let investment := StringToNumber other (form_initialInvestment form) in
  (num_isNaN amount = true ->
     addInvestmentSchema other form = Throws "Invalid amount") /\
  (num_isNaN amount = false -> num_lt amount zero = true ->
     addInvestmentSchema other form = Throws "Amount must be positive") /\
  (acceptable amount -> num_isNaN investment = true ->
     addInvestmentSchema other form = Throws "Invalid investment amount") /\
  (acceptable amount -> num_isNaN investment = false -> num_lt investment zero = true ->
     addInvestmentSchema other form = Throws "Investment must be positive") /\
  (forall msgs, addInvestmentSchema other form = Issues msgs ->
     acceptable amount /\ acceptable investment /\ msgs <> [] /\
     msgs = (if String.eqb (form_cryptoId form) "" then ["Cryptocurrency is required"]
             else [])
            ++ (if String.eqb (form_symbol form) "" then ["Symbol is required"] else [])).
Proof.
  cbv zeta. unfold addInvestmentSchema, acceptable. rewrite !transformNumber_spec.
  split; [now intros ->|]. split; [now intros -> ->|].
  split; [now intros [-> ->] ->|]. split; [now intros [-> ->] -> ->|].
  intros msgs.
  destruct (num_isNaN (StringToNumber other (form_amount form))); [discriminate|].
  destruct (num_lt (StringToNumber other (form_amount form)) zero); [discriminate|].
  destruct (num_isNaN (StringToNumber other (form_initialInvestment form)));
    [discriminate|].
  destruct (num_lt (StringToNumber other (form_initialInvestment form)) zero);
    [discriminate|].
  unfold min1.
  destruct (form_cryptoId form) as [|c1 s1], (form_symbol form) as [|c2 s2];
    cbn [String.length Nat.ltb Nat.leb app String.eqb]; try discriminate;
    intros [= <-]; repeat split; discriminate.
Qed.

Lemma add_investment_failures_witness :
  addInvestmentSchema other_is_NaN (mkAddInvestmentForm "" "" "abc" "-1") =
    Throws "Invalid amount" /\
  addInvestmentSchema other_is_NaN (sample_form "-2" "abc") =
    Throws "Amount must be positive" /\
  addInvestmentSchema other_is_NaN (sample_form "2" "abc") =
    Throws "Invalid investment amount" /\
  addInvestmentSchema other_is_NaN (sample_form "2" "-0.5") =
    Throws "Investment must be positive".
Proof.
  split; [|split; [|split]].
  - apply (proj1 (add_investment_failures other_is_NaN
                    (mkAddInvestmentForm "" "" "abc" "-1"))). reflexivity.
  - apply (proj1 (proj2 (add_investment_failures other_is_NaN (sample_form "-2" "abc"))));
      reflexivity.
  - apply (proj1 (proj2 (proj2
             (add_investment_failures other_is_NaN (sample_form "2" "abc")))));
      [split|]; reflexivity.
  - apply (proj1 (proj2 (proj2 (proj2
             (add_investment_failures other_is_NaN (sample_form "2" "-0.5"))))));
      [split| |]; reflexivity.
Defined.

(** X19. Numeric fields that are left empty convert to 0 and pass: the
    empty string is accepted as quantity 0 and as cost basis 0. *)
Theorem empty_numeric_field_is_zero (other : string -> number)
    (form : AddInvestmentForm) :
  form_cryptoId form <> "" -> form_symbol form <> "" ->
  form_amount form = "" -> form_initialInvestment form = "" ->
  addInvestmentSchema other form =
    Valid {| in_cryptoId := form_cryptoId form; in_symbol := form_symbol form;
             in_amount := zero; in_initialInvestment := zero |}.
Proof.
  intros Hc Hs Ha Hi.
  rewrite (add_investment_accepted other form Hc Hs);
    rewrite ?Ha, ?Hi; [reflexivity|now split..].
Qed.

Lemma empty_numeric_field_is_zero_witness :
  addInvestmentSchema other_is_NaN (sample_form "" "") =
    Valid {| in_cryptoId := "bitcoin"; in_symbol := "BTC";
             in_amount := zero; in_initialInvestment := zero |}.
Proof.
  apply (empty_numeric_field_is_zero other_is_NaN (sample_form "" ""));
    first [discriminate | reflexivity].
Defined.

(** ** Identifiers: the layout of a generated UUID *)

Lemma wrap32_small (z : Z) : (0 <= z <= 15)%Z -> wrap32 z = z.
Proof.
  intros H. unfold wrap32. rewrite Z.mod_small; [lia|].
  change (2 ^ 31)%Z with 2147483648%Z. change (2 ^ 32)%Z with 4294967296%Z. lia.
Qed.

Lemma draw_times_16 (x : number) :
  unit_draw x -> (0 <= to_int32 (num_mul x (num_of_Z 16)) <= 15)%Z.
Proof.
  destruct x as [q| | |]; cbn [unit_draw]; try contradiction. intros [H0 H1].
  cbn [num_mul num_of_Z to_int32].
  assert (E : (this (q * Q2Qc (inject_Z 16))%Qc == this q * inject_Z 16)%Q).
  { cbn [Qcmult this Q2Qc]. rewrite !Qred_correct. reflexivity. }
  assert (L : (0 <= this q * inject_Z 16)%Q).
  { apply Qmult_le_0_compat; [exact H0|discriminate]. }
  assert (U : (this q * inject_Z 16 < inject_Z 16)%Q).
  { apply Qlt_le_trans with (1 * inject_Z 16)%Q.
    - apply Qmult_lt_compat_r; [reflexivity|exact H1].
    - discriminate. }
  assert (T : truncate (q * Q2Qc (inject_Z 16))%Qc = Qfloor (this q * inject_Z 16)).
  { unfold truncate, Qc_ltb.
    destruct ((q * Q2Qc (inject_Z 16))%Qc ?= 0)%Qc eqn:C; try (now rewrite E).
    exfalso. change ((this (q * Q2Qc (inject_Z 16))%Qc ?= 0)%Q = Lt) in C.
    rewrite <- Qlt_alt, E in C. apply (Qlt_not_le _ _ C L). }
  rewrite T.
  assert (F0 : (0 <= Qfloor (this q * inject_Z 16))%Z).
  { change 0%Z with (Qfloor (inject_Z 0)). now apply Qfloor_resp_le. }
  assert (F1 : (Qfloor (this q * inject_Z 16) < 16)%Z).
  { rewrite Zlt_Qlt. eapply Qle_lt_trans; [apply Qfloor_le|exact U]. }
  rewrite wrap32_small; lia.
Qed.

Lemma below_16_cases (v : Z) (P : Z -> Prop) :
  (0 <= v <= 15)%Z ->
  P 0%Z -> P 1%Z -> P 2%Z -> P 3%Z -> P 4%Z -> P 5%Z -> P 6%Z -> P 7%Z ->
  P 8%Z -> P 9%Z -> P 10%Z -> P 11%Z -> P 12%Z -> P 13%Z -> P 14%Z -> P 15%Z ->
  P v.
Proof.
  intros H. intros.
  assert (v = 0 \/ v = 1 \/ v = 2 \/ v = 3 \/ v = 4 \/ v = 5 \/ v = 6 \/ v = 7 \/
          v = 8 \/ v = 9 \/ v = 10 \/ v = 11 \/ v = 12 \/ v = 13 \/ v = 14 \/ v = 15)%Z
    as Hv by lia.
  repeat (destruct Hv as [->|Hv]; [assumption|]). now subst.
Qed.

Lemma toString16_digit (v : Z) :
  (0 <= v <= 15)%Z ->
  exists c, toString16 v = String c EmptyString /\ is_hex_digit c = true /\
            ((8 <= v <= 11)%Z -> is_variant_digit c = true).
Proof.
  intros H. pattern v. apply (below_16_cases v); [exact H|..];
    (eexists; split; [reflexivity|split; [reflexivity|]]);
    first [reflexivity | intros; reflexivity | intros; lia].
Qed.

Lemma variant_bits (r : Z) : (0 <= r <= 15)%Z -> (8 <= Z.lor (Z.land r 3) 8 <= 11)%Z.
Proof.
  intros H. pattern r. apply (below_16_cases r); [exact H|..];
    split; vm_compute; discriminate.
Qed.

Lemma fits_replace_xy (random : nat -> number) (template : string) :
  (forall k, unit_draw (random k)) ->
  forall k, fits template (replace_xy template random k) = true.
Proof.
  intros Hr. induction template as [|c rest IH]; intros k; [reflexivity|].
  cbn [replace_xy]. unfold uuid_digit. cbv zeta.
  pose proof (draw_times_16 _ (Hr k)) as Hd.
  destruct (Ascii.eqb c "x") eqn:Ex; cbn [orb]; cbv iota.
  - destruct (toString16_digit _ Hd) as (d & Hs & Hh & _). rewrite Hs.
    change (String d "" +:+ replace_xy rest random (S k))
      with (String d (replace_xy rest random (S k))).
    cbn [fits]. now rewrite Ex, Hh, IH.
  - destruct (Ascii.eqb c "y") eqn:Ey; cbv iota.
    + pose proof (variant_bits _ Hd) as Hv.
      assert (Hv15 : (0 <= Z.lor (Z.land
                (to_int32 (num_mul (random k) (num_of_Z 16))) 3) 8 <= 15)%Z) by lia.
      destruct (toString16_digit _ Hv15) as (d & Hs & _ & Hh). rewrite Hs.
      change (String d "" +:+ replace_xy rest random (S k))
        with (String d (replace_xy rest random (S k))).
      cbn [fits]. now rewrite Ex, Ey, (Hh Hv), IH.
    + cbn [fits]. now rewrite Ex, Ey, Ascii.eqb_refl, IH.
Qed.

Lemma fits_length (template : string) :
  forall s, fits template s = true -> String.length s = String.length template.
Proof.
  induction template as [|t template IH]; intros [|c s] H; try discriminate;
    [reflexivity|].
  cbn [fits] in H. apply andb_prop in H as [_ H]. cbn [String.length].
  now rewrite (IH _ H).
Qed.

(** X21. Whatever [Math.random()] draws, [generateUUID] yields 36
    characters laid out as a version-4 UUID: hyphens after 8, 12, 16 and
    20 digits, the digit 4 at the head of the third group, one of 8, 9,
    a, b at the head of the fourth, and lower-case hexadecimal digits
    elsewhere. *)
Theorem generateUUID_layout (random : nat -> number) :
  (forall k, unit_draw (random k)) ->
  fits "xxxxxxxx-xxxx-4xxx-yxxx-xxxxxxxxxxxx" (generateUUID random) = true /\
  String.length (generateUUID random) = 36%nat.
Proof.
  intros Hr. pose proof (fits_replace_xy random uuid_template Hr 0) as Hf.
  split; [exact Hf|]. exact (fits_length _ _ Hf).
Qed.

Lemma generateUUID_layout_witness :
  fits "xxxxxxxx-xxxx-4xxx-yxxx-xxxxxxxxxxxx" (generateUUID always_half) = true /\
  String.length (generateUUID always_half) = 36%nat.
Proof.
  apply (generateUUID_layout always_half). intros k.
  split; [vm_compute; discriminate|reflexivity].
Defined.

Example generateUUID_half :
  generateUUID always_half = "88888888-8888-4888-8888-888888888888".
Proof. reflexivity. Qed.

(** ** Batch price resolution *)

Lemma elem_of_unique (ids : list string) :
  forall (seen : list string) (x : string),
    x ∈ unique seen ids <-> x ∈ ids /\ x ∉ seen.
Proof.
  induction ids as [|y rest IH]; intros seen x; cbn [unique].
  - split; [intros H; inversion H|intros [H _]; inversion H].
  - case_bool_decide as Hy.
    + rewrite IH, elem_of_cons. split; [tauto|].
      intros [[->|H] Hn]; [contradiction|tauto].
    + rewrite elem_of_cons, IH, !elem_of_cons. split.
      * intros [->|[H Hn]]; [tauto|]. split; [tauto|]. intros Hs. apply Hn. tauto.
      * intros [[->|H] Hn]; [tauto|].
        destruct (decide (x = y)) as [->|Hxy]; [tauto|]. right. split; [exact H|].
        intros [?|?]; tauto.
Qed.

Lemma NoDup_unique (ids : list string) :
  forall seen : list string, NoDup (unique seen ids).
Proof.
  induction ids as [|y rest IH]; intros seen; cbn [unique]; [constructor|].
  case_bool_decide as Hy; [apply IH|].
  constructor; [|apply IH]. rewrite elem_of_unique, elem_of_cons. tauto.
Qed.

Lemma assign_other_key (prices : PriceRecord) (k : string) (v : jsval) :
  k <> "__proto__" ->
  assign prices k v = {| own_prices := <[k := v]> (own_prices prices);
                         prototype := prototype prices |}.
Proof.
  intros Hk. unfold assign.
  destruct (String.eqb k "__proto__") eqn:E; [|reflexivity].
  now apply String.eqb_eq in E.
Qed.

Lemma assign_proto_key (prices : PriceRecord) (v : jsval) :
  own_prices prices !! "__proto__" = None ->
  prototype prices = ObjectPrototype ->
  assign prices "__proto__" v =
    {| own_prices := own_prices prices;
       prototype := default ObjectPrototype (as_prototype v) |}.
Proof.
  intros Hown Hproto. unfold assign, reaches_accessor. rewrite Hown, Hproto.
  cbn [String.eqb Ascii.eqb Bool.eqb andb].
  destruct prices as [own proto]. cbn [prototype own_prices] in *. subst proto.
  now destruct (as_prototype v).
Qed.

(** The record after the callbacks of distinct identifiers have run, from
    a record without an entry [__proto__] of its own. *)
Lemma fold_resolvePrice (net : network) (ids : list string) :
  NoDup ids ->
  forall prices : PriceRecord,
    own_prices prices !! "__proto__" = None ->
    ("__proto__" ∈ ids -> prototype prices = ObjectPrototype) ->
    (forall x, x <> "__proto__" ->
       own_prices (fold_left (resolvePrice net) ids prices) !! x =
         if bool_decide (x ∈ ids)
         then match fst (getCryptoPrice net x) with
              | Ok price => Some price
              | Err _ => own_prices prices !! x
              end
         else own_prices prices !! x) /\
    own_prices (fold_left (resolvePrice net) ids prices) !! "__proto__" = None /\
    prototype (fold_left (resolvePrice net) ids prices) =
      if bool_decide ("__proto__" ∈ ids)
      then match fst (getCryptoPrice net "__proto__") with
           | Ok price => default ObjectPrototype (as_prototype price)
           | Err _ => prototype prices
           end
      else prototype prices.
Proof.
  induction 1 as [|y rest Hy Hnd IH]; intros prices Hown Hproto; cbn [fold_left].
  - split; [|split].
    + intros x _. case_bool_decide as H; [inversion H|reflexivity].
    + exact Hown.
    + case_bool_decide as H; [inversion H|reflexivity].
  - assert (Hmem : forall x, x <> y ->
              bool_decide (x ∈ y :: rest) = bool_decide (x ∈ rest)).
    { intros x Hxy. apply bool_decide_ext. rewrite elem_of_cons. tauto. }
    assert (Hhead : forall x, x = y -> bool_decide (x ∈ y :: rest) = true /\
                                       bool_decide (x ∈ rest) = false).
    { intros x ->. split; [apply bool_decide_eq_true_2; left|].
      now apply bool_decide_eq_false_2. }
    unfold resolvePrice at 2 4 6.
    destruct (fst (getCryptoPrice net y)) as [price|e] eqn:E.
    + destruct (decide (y = "__proto__")) as [->|Hyp].
      * rewrite (assign_proto_key prices price Hown) by (apply Hproto; left).
        destruct (IH {| own_prices := own_prices prices;
                        prototype := default ObjectPrototype (as_prototype price) |}
                     Hown) as (Hx & Hp & Hq).
        { intros Hin. contradiction. }
        cbn [own_prices prototype] in Hx, Hq.
        split; [|split].
        -- intros x Hxp. rewrite (Hx x Hxp), (Hmem x Hxp). reflexivity.
        -- exact Hp.
        -- rewrite Hq. destruct (Hhead "__proto__" eq_refl) as [-> ->].
           now rewrite E.
      * rewrite (assign_other_key prices y price Hyp).
        destruct (IH {| own_prices := <[y := price]> (own_prices prices);
                        prototype := prototype prices |}) as (Hx & Hp & Hq).
        { cbn [own_prices]. rewrite lookup_insert_ne by congruence. exact Hown. }
        { cbn [prototype]. intros Hin. apply Hproto. now right. }
        cbn [own_prices prototype] in Hx, Hq.
        split; [|split].
        -- intros x Hxp. rewrite (Hx x Hxp).
           destruct (decide (x = y)) as [->|Hxy].
           ++ destruct (Hhead y eq_refl) as [-> ->]. rewrite E.
              apply lookup_insert_eq.
           ++ rewrite (Hmem x Hxy), lookup_insert_ne by congruence. reflexivity.
        -- exact Hp.
        -- rewrite Hq, (Hmem "__proto__") by congruence. reflexivity.
    + destruct (IH prices Hown) as (Hx & Hp & Hq).
      { intros Hin. apply Hproto. now right. }
      split; [|split].
      * intros x Hxp. rewrite (Hx x Hxp).
        destruct (decide (x = y)) as [->|Hxy].
        -- destruct (Hhead y eq_refl) as [-> ->]. now rewrite E.
        -- now rewrite (Hmem x Hxy).
      * exact Hp.
      * rewrite Hq. destruct (decide ("__proto__" = y)) as [<-|Hyp].
        -- destruct (Hhead "__proto__" eq_refl) as [-> ->]. now rewrite E.
        -- now rewrite (Hmem "__proto__" Hyp).
Qed.

Lemma elem_of_uniqueCryptoIds (portfolio : list PortfolioItem) (assetId : string) :
  assetId ∈ uniqueCryptoIds portfolio <-> assetId ∈ map cryptoId portfolio.
Proof.
  unfold uniqueCryptoIds. rewrite elem_of_unique.
  split; [tauto|]. intros H. split; [exact H|]. intros Hn. inversion Hn.
Qed.

(** The record of the batch: its entries, and its prototype. *)
Lemma resolved_prices (net : network) (portfolio : list PortfolioItem) :
  (forall assetId, assetId <> "__proto__" ->
     own_prices (fetchPrices net portfolio) !! assetId =
       if bool_decide (assetId ∈ map cryptoId portfolio)
       then match fst (getCryptoPrice net assetId) with
            | Ok price => Some price
            | Err _ => None
            end
       else None) /\
  own_prices (fetchPrices net portfolio) !! "__proto__" = None /\
  prototype (fetchPrices net portfolio) =
    if bool_decide ("__proto__" ∈ map cryptoId portfolio)
    then match fst (getCryptoPrice net "__proto__") with
         | Ok price => default ObjectPrototype (as_prototype price)
         | Err _ => ObjectPrototype
         end
    else ObjectPrototype.
Proof.
  assert (Hmem : forall x, bool_decide (x ∈ uniqueCryptoIds portfolio) =
                           bool_decide (x ∈ map cryptoId portfolio)).
  { intros x. apply bool_decide_ext, elem_of_uniqueCryptoIds. }
  destruct (fold_resolvePrice net (uniqueCryptoIds portfolio)
              (NoDup_unique _ _) empty_record) as (Hx & Hp & Hq);
    [apply lookup_empty|reflexivity|].
  fold (fetchPrices net portfolio) in Hx, Hp, Hq.
  split; [|split].
  - intros x Hxp. rewrite (Hx x Hxp), Hmem. cbn [own_prices empty_record].
    rewrite lookup_empty. reflexivity.
  - exact Hp.
  - rewrite Hq, Hmem. reflexivity.
Qed.

Lemma resolved_price_truthy (net : network) (assetId : string) (price : jsval) :
  fst (getCryptoPrice net assetId) = Ok price -> truthy price = true.
Proof.
  unfold getCryptoPrice.
  destruct (fetchWithRetry net (price_url assetId) 3) as [[response|e] tr];
    cbn [fst bind]; [|discriminate].
  destruct (json response) as [data|]; cbn [bind]; [|discriminate].
  apply priceFromBody_truthy.
Qed.

(** X22. After the batch has settled, the record holds under an asset
    identifier of the portfolio other than [__proto__] the price that
    [getCryptoPrice] returned for that asset, holds nothing for an asset
    whose call failed, and nothing under any other key: the entry of one
    asset depends on its own call only.  The price returned for an asset
    called [__proto__] gets no entry: when it is an object it becomes the
    prototype of the record, which is [Object.prototype] otherwise. *)
Theorem fetchPrices_lookup (net : network) (portfolio : list PortfolioItem)
    (assetId : string) :
  own_prices (fetchPrices net portfolio) !! assetId =
    (if bool_decide (assetId ∈ map cryptoId portfolio)
        && negb (String.eqb assetId "__proto__")
     then match fst (getCryptoPrice net assetId) with
          | Ok price => Some price
          | Err _ => None
          end
     else None) /\
  prototype (fetchPrices net portfolio) =
    (if bool_decide ("__proto__" ∈ map cryptoId portfolio)
     then match fst (getCryptoPrice net "__proto__") with
          | Ok price => default ObjectPrototype (as_prototype price)
          | Err _ => ObjectPrototype
          end
     else ObjectPrototype).
Proof.
  destruct (resolved_prices net portfolio) as (Hx & Hp & Hq).
  split; [|exact Hq].
  destruct (String.eqb assetId "__proto__") eqn:E.
  - apply String.eqb_eq in E as ->. rewrite Hp. now rewrite andb_false_r.
  - apply String.eqb_neq in E. rewrite (Hx assetId E), andb_true_r. reflexivity.
Qed.

(** X23. Every distinct asset of the portfolio is resolved once, however
    many positions hold it; the warnings name exactly the assets, other
    than [__proto__], that the portfolio holds and the record has no entry
    for; the record never has an entry [__proto__]; and every price in
    the record is truthy. *)
Theorem batch_resolves_each_asset_once (net : network)
    (portfolio : list PortfolioItem) :
  NoDup (uniqueCryptoIds portfolio) /\
  (forall assetId, assetId ∈ uniqueCryptoIds portfolio <->
                   assetId ∈ map cryptoId portfolio) /\
  (forall assetId, assetId <> "__proto__" ->
     (assetId ∈ failedAssets net portfolio <->
      assetId ∈ map cryptoId portfolio /\
      own_prices (fetchPrices net portfolio) !! assetId = None)) /\
  own_prices (fetchPrices net portfolio) !! "__proto__" = None /\
  (forall assetId price,
     own_prices (fetchPrices net portfolio) !! assetId = Some price ->
     truthy price = true).
Proof.
  destruct (resolved_prices net portfolio) as (Hx & Hp & _).
  split; [apply NoDup_unique|]. split; [apply elem_of_uniqueCryptoIds|].
  split; [|split; [exact Hp|]].
  - intros x Hxp. unfold failedAssets.
    rewrite list_elem_of_In, filter_In, <- list_elem_of_In.
    rewrite elem_of_uniqueCryptoIds, (Hx x Hxp).
    split.
    + intros [Hin Hf]. split; [exact Hin|].
      rewrite (bool_decide_eq_true_2 _ Hin).
      now destruct (fst (getCryptoPrice net x)).
    + intros [Hin Hf]. split; [exact Hin|].
      rewrite (bool_decide_eq_true_2 _ Hin) in Hf.
      now destruct (fst (getCryptoPrice net x)).
  - intros x price. destruct (decide (x = "__proto__")) as [->|Hxp].
    + now rewrite Hp.
    + rewrite (Hx x Hxp). case_bool_decide; [|discriminate].
      destruct (fst (getCryptoPrice net x)) as [v|e] eqn:E; [|discriminate].
      intros [= <-]. exact (resolved_price_truthy _ _ _ E).
Qed.

Lemma batch_resolves_each_asset_once_witness :
  "B" ∈ failedAssets only_A_answers [holding "A" 2 15; holding "B" 3 5; holding "A" 1 4] /\
  truthy (JNum (num_of_Z 10)) = true.
Proof.
  split.
  - apply (proj1 (proj2 (proj2 (batch_resolves_each_asset_once only_A_answers
             [holding "A" 2 15; holding "B" 3 5; holding "A" 1 4]))) "B").
    + discriminate.
    + split; [|reflexivity]. cbn [map cryptoId holding]. rewrite !elem_of_cons. tauto.
  - apply (proj2 (proj2 (proj2 (proj2 (batch_resolves_each_asset_once only_A_answers
             [holding "A" 2 15; holding "B" 3 5; holding "A" 1 4])))) "A").
    reflexivity.
Defined.

(** Three positions in two assets: two calls. *)
Example batch_unique_assets :
  uniqueCryptoIds [holding "A" 2 15; holding "B" 3 5; holding "A" 1 4] = ["A"; "B"].
Proof. reflexivity. Qed.

(** X24. From the batch to the totals: when the call for the asset of a
    position fails, the prices that do arrive are numbers, the position's
    quantity is finite and its asset identifier is not a name inherited
    from [Object.prototype], the query still settles with a record whose
    prototype is [Object.prototype], the position is valued at 0 in its
    row, and the total value is what it would be without that position. *)
Theorem failed_asset_counts_for_nothing (net : network)
    (before after : list PortfolioItem) (item : PortfolioItem) (e : Error) :
  let portfolio := before ++ item :: after in
  let prices := declared_prices (pricesQuery net portfolio) in
  fst (getCryptoPrice net (cryptoId item)) = Err e ->
  (forall assetId price,
     assetId ∈ map cryptoId portfolio ->
     fst (getCryptoPrice net assetId) = Ok price -> is_number price = true) ->
  inherited_name (cryptoId item) = false ->
  is_finite (amount item) ->
  pricesQuery net portfolio = Some (fetchPrices net portfolio) /\
  prototype (fetchPrices net portfolio) = ObjectPrototype /\
  spot_price prices (cryptoId item) = None /\
  row_currentValue (rowMetrics prices item) = zero /\
  totalValue prices portfolio = totalValue prices (before ++ after).
Proof.
  intros portfolio prices Herr Hnum Hname Hfin.
  destruct (resolved_prices net portfolio) as (Hx & Hp & Hq).
  assert (Hquery : pricesQuery net portfolio = Some (fetchPrices net portfolio)).
  { unfold portfolio. now destruct before. }
  assert (Hobj : prototype (fetchPrices net portfolio) = ObjectPrototype).
  { rewrite Hq. case_bool_decide as Hin; [|reflexivity].
    destruct (fst (getCryptoPrice net "__proto__")) as [price|] eqn:E; [|reflexivity].
    pose proof (Hnum _ _ Hin E) as Hn. now destruct price. }
  assert (Habs : spot_price prices (cryptoId item) = None).
  { unfold prices. rewrite Hquery. cbn [declared_prices spot_price mbind option_bind].
    rewrite lookup_fmap.
    destruct (decide (cryptoId item = "__proto__")) as [Heq|Hne].
    - rewrite Heq, Hp. reflexivity.
    - rewrite (Hx _ Hne), Herr.
      destruct (bool_decide (cryptoId item ∈ map cryptoId portfolio)); reflexivity. }
  assert (Hz : num_mul (currentPrice prices item) (amount item) = zero).
  { rewrite (currentPrice_spot_price _ _ Hname), Habs. now apply num_mul_0_finite. }
  split; [exact Hquery|]. split; [exact Hobj|]. split; [exact Habs|].
  split; [exact Hz|]. now apply totalValue_without.
Qed.

Lemma failed_asset_counts_for_nothing_witness :
  pricesQuery only_A_answers ([holding "A" 2 15] ++ holding "B" 3 5 :: []) =
    Some (fetchPrices only_A_answers ([holding "A" 2 15] ++ holding "B" 3 5 :: [])) /\
  prototype (fetchPrices only_A_answers ([holding "A" 2 15] ++ holding "B" 3 5 :: [])) =
    ObjectPrototype /\
  spot_price (declared_prices
                (pricesQuery only_A_answers ([holding "A" 2 15] ++ holding "B" 3 5 :: [])))
             "B" = None /\
  row_currentValue
    (rowMetrics (declared_prices
                   (pricesQuery only_A_answers
                      ([holding "A" 2 15] ++ holding "B" 3 5 :: [])))
                (holding "B" 3 5)) = zero /\
  totalValue (declared_prices
                (pricesQuery only_A_answers ([holding "A" 2 15] ++ holding "B" 3 5 :: [])))
             ([holding "A" 2 15] ++ holding "B" 3 5 :: []) =
  totalValue (declared_prices
                (pricesQuery only_A_answers ([holding "A" 2 15] ++ holding "B" 3 5 :: [])))
             ([holding "A" 2 15] ++ []).
Proof.
  apply (failed_asset_counts_for_nothing only_A_answers [holding "A" 2 15] []
           (holding "B" 3 5) (HttpError 500 "Internal Server Error")).
  - reflexivity.
  - intros assetId price Hin.
    apply elem_of_cons in Hin as [->|Hin]; [now intros [= <-]|].
    apply elem_of_cons in Hin as [->|Hin]; [discriminate|inversion Hin].
  - reflexivity.
  - exact I.
Defined.

(** The totals of that batch: 20 for the two units of [A], nothing for [B]. *)
Example batch_valuation :
  totalValue (declared_prices
                (pricesQuery only_A_answers [holding "A" 2 15; holding "B" 3 5]))
             [holding "A" 2 15; holding "B" 3 5] = num_of_Z 20 /\
  failedAssets only_A_answers [holding "A" 2 15; holding "B" 3 5] = ["B"].
Proof. split; [number_eq|reflexivity]. Qed.

(** An asset called [__proto__] whose quote is an object: the batch stores
    no entry, and the quote becomes the prototype of the record. *)
Example batch_prototype_replaced :
  own_prices (fetchPrices proto_answers [holding "__proto__" 1 1]) = ∅ /\
  prototype (fetchPrices proto_answers [holding "__proto__" 1 1]) =
    ParsedObject {[ "A" := JNum (num_of_Z 10) ]}.
Proof. split; reflexivity. Qed.

(** ** The stored-item schema *)

(** X20. A value of the declared shape passes [portfolioItemSchema]
    exactly when neither its quantity nor its cost basis is NaN or below
    zero, and it is returned unchanged; zero and the infinities pass. *)
Theorem portfolio_item_accepts_iff (item : PortfolioItem) :
  (portfolioItemSchema item = inl item <->
   acceptable (amount item) /\ acceptable (initialInvestment item)) /\
  (forall parsed, portfolioItemSchema item = inl parsed -> parsed = item) /\
  (forall issues, portfolioItemSchema item = inr issues ->
     (0 < length issues <= 2)%nat).
Proof.
  unfold portfolioItemSchema, checkMin0, acceptable.
  destruct (num_isNaN (amount item)), (num_lt (amount item) zero),
    (num_isNaN (initialInvestment item)), (num_lt (initialInvestment item) zero);
    cbn [app]; (split; [split; [try discriminate; now intros _|
                               try reflexivity; intros [[? ?] [? ?]]; discriminate]|]);
    (split; [intros parsed; try discriminate; now intros [= <-]|]);
    intros issues; try discriminate; intros [= <-]; cbn [length]; lia.
Qed.

Lemma portfolio_item_accepts_iff_witness :
  portfolioItemSchema (holding "A" 0 0) = inl (holding "A" 0 0).
Proof.
  apply (proj2 (proj1 (portfolio_item_accepts_iff (holding "A" 0 0)))).
  repeat split.
Defined.

(** ** Market details and price history *)

(** A response that the fetcher hands to its caller has a success status. *)
Lemma fetched_response_ok (net : network) (url : string) (attempts : nat)
    (response : Response) (tr : list event) :
  fetchWithRetry net url attempts = (Ok response, tr) ->
  ok response = true /\
  exists j, (j < attempts)%nat /\ net url j = Responds response.
Proof.
  intros H. assert (H' : fst (fetchWithRetry net url attempts) = Ok response)
    by now rewrite H.
  unfold fetchWithRetry in H'.
  apply retry_loop_ok_origin in H' as (j & Hj & Hr & Hok & _).
  split; [exact Hok|]. exists j. split; [lia|exact Hr].
Qed.

(** X25. The details that [getCryptoDetails] returns are the body of a
    successful response of the run and have a truthy [market_data]; the
    check of [response.ok] after the fetcher can never fail, so the error
    "Failed to fetch crypto details" is never raised. *)
Theorem details_come_from_ok_response (net : network) (cryptoId : string) :
  (forall data, fst (getCryptoDetails net cryptoId) = inr data ->
     exists j response md,
       (j < 3)%nat /\ net (details_url cryptoId) j = Responds response /\
       ok response = true /\ body response = Some data /\
       get_prop data "market_data" = Ok md /\ truthy md = true) /\
  (forall text, fst (getCryptoDetails net cryptoId) <> inl (FailedToFetchDetails text)).
Proof.
  unfold getCryptoDetails.
  destruct (fetchWithRetry net (details_url cryptoId) 3) as [[response|e] tr] eqn:F;
    cbn [fst]; [|split; [intros data|intros text]; discriminate].
  apply fetched_response_ok in F as (Hok & j & Hj & Hr). rewrite Hok. cbn [negb].
  unfold json. destruct (body response) as [data'|] eqn:B;
    [|split; [intros data|intros text]; discriminate].
  destruct (get_prop data' "market_data") as [md|e] eqn:G;
    [|split; [intros data|intros text]; discriminate].
  destruct (truthy md) eqn:T; cbn [negb];
    [|split; [intros data|intros text]; discriminate].
  split; [|intros text; discriminate].
  intros data [= <-]. exists j, response, md. now repeat split.
Qed.

Lemma details_come_from_ok_response_witness :
  exists j response md,
    (j < 3)%nat /\ answers (Some details_body) (details_url "bitcoin") j = Responds response /\
    ok response = true /\ body response = Some details_body /\
    get_prop details_body "market_data" = Ok md /\ truthy md = true.
Proof.
  apply (proj1 (details_come_from_ok_response (answers (Some details_body)) "bitcoin")).
  reflexivity.
Defined.

Lemma map_points_series (pairs : list (jsval * jsval)) :
  map_points (map (fun tp => JArr [fst tp; snd tp]) pairs) =
    Ok (map (fun tp => mkPriceHistoryPoint (fst tp) (snd tp)) pairs).
Proof.
  induction pairs as [|tp pairs IH]; [reflexivity|].
  cbn [map map_points destructure_pair nth bind]. now rewrite IH.
Qed.

Lemma map_points_length (elems : list jsval) :
  forall points, map_points elems = Ok points ->
    length points = length elems /\
    forall i elem, elems !! i = Some elem ->
      exists point, points !! i = Some point /\ destructure_pair elem = Ok point.
Proof.
  induction elems as [|elem rest IH]; intros points; cbn [map_points].
  - intros [= <-]. split; [reflexivity|]. intros i e H. inversion H.
  - destruct (destructure_pair elem) as [point|e] eqn:D; [|discriminate]. cbn [bind].
    destruct (map_points rest) as [ps|e]; [|discriminate]. cbn [bind].
    intros [= <-]. destruct (IH ps eq_refl) as [Hl Hi]. split; [cbn; now rewrite Hl|].
    intros [|i] e H; cbn in H.
    + injection H as <-. exists point. now split.
    + now apply Hi.
Qed.

(** X26. A series of [[timestamp, price]] pairs comes back as the points
    with the same timestamps and prices, as many and in the same order. *)
Theorem history_preserves_order (net : network) (cryptoId : string) (days : Z)
    (response : Response) (tr : list event) (fields : gmap string jsval)
    (pairs : list (jsval * jsval)) :
  fetchWithRetry net (history_url cryptoId days) 3 = (Ok response, tr) ->
  body response = Some (JObj fields) ->
  fields !! "prices" = Some (series pairs) ->
  getCryptoPriceHistory net cryptoId days =
    (inr (map (fun tp => mkPriceHistoryPoint (fst tp) (snd tp)) pairs), tr).
Proof.
  intros F B P. unfold getCryptoPriceHistory. rewrite F.
  apply fetched_response_ok in F as (Hok & _). rewrite Hok. cbn [negb].
  unfold json. rewrite B. cbn [get_prop]. rewrite P.
  cbn [from_option Datatypes.id series truthy isArray negb orb].
  now rewrite map_points_series.
Qed.

Lemma history_preserves_order_witness :
  getCryptoPriceHistory (answers (Some (JObj {[ "prices" := series three_days ]})))
                        "bitcoin" 30 =
    (inr (map (fun tp => mkPriceHistoryPoint (fst tp) (snd tp)) three_days), [EvFetch]).
Proof.
  apply (history_preserves_order
           (answers (Some (JObj {[ "prices" := series three_days ]}))) "bitcoin" 30
           (mkResponse 200 "OK" (Some (JObj {[ "prices" := series three_days ]})))
           [EvFetch] {[ "prices" := series three_days ]} three_days);
    reflexivity.
Defined.

(** X27. Whatever the provider sends, a history that is returned has one
    point for every element of the array under [prices], in order, each
    point being the first two values of its element; a body whose
    [prices] is missing or is not an array fails with "Invalid price
    history data received"; and the error "Failed to fetch price history"
    is never raised. *)
Theorem history_shape (net : network) (cryptoId : string) (days : Z) :
  (forall points, fst (getCryptoPriceHistory net cryptoId days) = inr points ->
     exists j response data elems,
       (j < 3)%nat /\ net (history_url cryptoId days) j = Responds response /\
       body response = Some data /\ get_prop data "prices" = Ok (JArr elems) /\
       length points = length elems /\
       forall i elem, elems !! i = Some elem ->
         exists point, points !! i = Some point /\ destructure_pair elem = Ok point) /\
  (forall response tr data prices,
     fetchWithRetry net (history_url cryptoId days) 3 = (Ok response, tr) ->
     body response = Some data -> get_prop data "prices" = Ok prices ->
     isArray prices = false ->
     fst (getCryptoPriceHistory net cryptoId days) = inl InvalidHistoryData) /\
  (forall text,
     fst (getCryptoPriceHistory net cryptoId days) <> inl (FailedToFetchHistory text)).
Proof.
  unfold getCryptoPriceHistory.
  destruct (fetchWithRetry net (history_url cryptoId days) 3) as [[response|e] tr] eqn:F;
    cbn [fst].
  2:{ split; [intros points; discriminate|]. split; [|intros text; discriminate].
      intros response tr' data prices [=]. }
  pose proof (fetched_response_ok _ _ _ _ _ F) as (Hok & j & Hj & Hr).
  rewrite Hok. cbn [negb]. unfold json. split; [|split].
  - intros points. destruct (body response) as [data|] eqn:B; [|discriminate].
    destruct (get_prop data "prices") as [prices|e] eqn:G; [|discriminate].
    destruct prices as [| | | | |elems|]; cbn [truthy isArray negb orb];
      try discriminate; try (destruct (negb _); discriminate).
    destruct (map_points elems) as [ps|e] eqn:M; [|discriminate].
    intros [= <-]. destruct (map_points_length _ _ M) as [Hl Hi].
    exists j, response, data, elems. now repeat split.
  - intros response' tr' data prices [= <- <-] B G A. rewrite B, G.
    destruct prices; try discriminate; cbn [truthy isArray negb orb];
      try reflexivity; now destruct (negb _).
  - intros text. destruct (body response) as [data|]; [|discriminate].
    destruct (get_prop data "prices") as [prices|e]; [|discriminate].
    destruct (negb (truthy prices) || negb (isArray prices)); [discriminate|].
    destruct prices; try discriminate. now destruct (map_points elems).
Qed.

Lemma history_shape_witness :
  fst (getCryptoPriceHistory (answers (Some (JObj ∅))) "bitcoin" 30) =
    inl InvalidHistoryData.
Proof.
  apply (proj1 (proj2 (history_shape (answers (Some (JObj ∅))) "bitcoin" 30))
           (mkResponse 200 "OK" (Some (JObj ∅))) [EvFetch] (JObj ∅) JUndefined);
    reflexivity.
Defined.

(** ** The asset table *)

(** X28. Every option of the asset select has an identifier in the table,
    and choosing it stores that identifier (never an empty one) as the
    asset and the option's value as the symbol; two symbols never share an
    identifier; a value that the table has no entry for leaves the form as
    it was unless it names a member that the table inherits from
    [Object.prototype], which then becomes the asset of the form. *)
Theorem listed_currencies_resolve :
  (forall value label form,
     (value, label) ∈ cryptocurrencies ->
     exists cryptoId,
       cryptoIds !! value = Some cryptoId /\ cryptoId <> "" /\
       selectCrypto value form =
         TextFields {| form_cryptoId := cryptoId; form_symbol := value;
                       form_amount := form_amount form;
                       form_initialInvestment := form_initialInvestment form |}) /\
  (forall symbol1 symbol2 cryptoId,
     cryptoIds !! symbol1 = Some cryptoId -> cryptoIds !! symbol2 = Some cryptoId ->
     symbol1 = symbol2) /\
  (forall value form,
     cryptoIds !! value = None -> inherited_name value = false ->
     selectCrypto value form = TextFields form) /\
  (forall value form,
     inherited_name value = true ->
     selectCrypto value form =
       InheritedAsset value (form_amount form) (form_initialInvestment form)).
Proof.
  split; [|split; [|split]].
  - intros value label form H. unfold cryptocurrencies in H.
    do 7 (apply elem_of_cons in H as [H|H];
          [injection H as -> ->; eexists; split; [vm_compute; reflexivity|];
           split; [discriminate|reflexivity]|]).
    inversion H.
  - intros s1 s2 cid H1 H2.
    apply elem_of_list_to_map_2 in H1. apply elem_of_list_to_map_2 in H2.
    unfold cryptoIds_entries in *.
    do 7 (apply elem_of_cons in H1 as [H1|H1];
          [injection H1 as -> ->;
           do 7 (apply elem_of_cons in H2 as [H2|H2];
                 [injection H2 as ->; try reflexivity; discriminate|]);
           inversion H2|]).
    inversion H1.
  - intros value form H Hname. unfold selectCrypto. now rewrite H, Hname.
  - intros value form Hname. unfold selectCrypto.
    assert (Hnone : cryptoIds !! value = None).
    { unfold inherited_name in Hname. apply existsb_exists in Hname as (k & Hin & Hk).
      apply String.eqb_eq in Hk as <-. unfold object_prototype_names in Hin.
      do 12 (destruct Hin as [<-|Hin]; [vm_compute; reflexivity|]).
      destruct Hin. }
    now rewrite Hnone, Hname.
Qed.

Lemma listed_currencies_resolve_witness :
  (exists cryptoId,
     cryptoIds !! "DOGE" = Some cryptoId /\ cryptoId <> "" /\
     selectCrypto "DOGE" (mkAddInvestmentForm "" "" "0" "0") =
       TextFields {| form_cryptoId := cryptoId; form_symbol := "DOGE";
                     form_amount := "0"; form_initialInvestment := "0" |}) /\
  selectCrypto "LTC" (mkAddInvestmentForm "" "" "0" "0") =
    TextFields (mkAddInvestmentForm "" "" "0" "0") /\
  selectCrypto "toString" (mkAddInvestmentForm "" "" "0" "0") =
    InheritedAsset "toString" "0" "0".
Proof.
  split; [|split].
  - apply (proj1 listed_currencies_resolve "DOGE" "Dogecoin (DOGE)"
             (mkAddInvestmentForm "" "" "0" "0")).
    unfold cryptocurrencies. rewrite !elem_of_cons. tauto.
  - apply (proj1 (proj2 (proj2 listed_currencies_resolve)) "LTC"
             (mkAddInvestmentForm "" "" "0" "0")); reflexivity.
  - apply (proj2 (proj2 (proj2 listed_currencies_resolve)) "toString"
             (mkAddInvestmentForm "" "" "0" "0")); reflexivity.
Defined.

(** ** The investment calculator *)

(** Buying at 50 and selling at 60 with 1000 invested: 200 of profit, 20
    percent, 195 to take home. *)
Example calculator_scenario :
  res_profitLoss (onSubmit parse_plain (sample_trade "50" "60")) = num_of_Z 200 /\
  res_percentageChange (onSubmit parse_plain (sample_trade "50" "60")) = num_of_Z 20 /\
  res_takeHome (onSubmit parse_plain (sample_trade "50" "60")) = num_of_Z 195 /\
  res_totalInvestment (onSubmit parse_plain (sample_trade "50" "60")) = num_of_Z 1010.
Proof. repeat split; number_eq. Qed.

Lemma div_by_zero_not_finite (x : number) : ~ is_finite (num_div x zero).
Proof.
  destruct x as [a| | |]; cbn [num_div zero];
    try change (Qc_eqb 0 0) with true; cbv iota;
    try destruct (a ?= 0)%Qc; intros [].
Qed.

Lemma num_mul_not_finite_l (x y : number) : ~ is_finite x -> ~ is_finite (num_mul x y).
Proof.
  destruct x, y; cbn [num_mul is_finite]; try tauto;
    intros _; destruct (sign_mul _ _); intros [].
Qed.

Lemma num_mul_not_finite_r (x y : number) : ~ is_finite y -> ~ is_finite (num_mul x y).
Proof.
  destruct x, y; cbn [num_mul is_finite]; try tauto;
    intros _; destruct (sign_mul _ _); intros [].
Qed.

(** X30. A buy price of zero is not guarded: the percentage and the
    profit are then an infinity or NaN, never a finite number, whatever
    the other fields hold. *)
Theorem calculator_zero_buy_price (parseFloat : string -> number)
    (data : CalculatorInput) :
  parseFloat (calc_buyPrice data) = zero ->
  ~ is_finite (res_percentageChange (onSubmit parseFloat data)) /\
  ~ is_finite (res_profitLoss (onSubmit parseFloat data)) /\
  ~ is_finite (res_takeHome (onSubmit parseFloat data)).
Proof.
  intros Hb. unfold onSubmit. rewrite Hb.
  cbn [res_percentageChange res_profitLoss res_takeHome].
  assert (Hp : ~ is_finite
    (num_mul (num_sub (parseFloat (calc_sellPrice data)) zero)
             (num_div (parseFloat (calc_investment data)) zero))).
  { apply num_mul_not_finite_r, div_by_zero_not_finite. }
  split; [apply num_mul_not_finite_l, div_by_zero_not_finite|].
  split; [exact Hp|].
  unfold num_sub at 1.
  destruct (num_mul _ _), (num_neg (parseFloat (calc_exitFee data)));
    cbn [num_add is_finite]; tauto.
Qed.

Lemma calculator_zero_buy_price_witness :
  ~ is_finite (res_percentageChange (onSubmit parse_plain (sample_trade "0" "60"))) /\
  ~ is_finite (res_profitLoss (onSubmit parse_plain (sample_trade "0" "60"))) /\
  ~ is_finite (res_takeHome (onSubmit parse_plain (sample_trade "0" "60"))).
Proof.
  apply (calculator_zero_buy_price parse_plain (sample_trade "0" "60")). number_eq.
Defined.
